(** * Duet3Expansion sensor layer: a shallow embedding and its properties

    The development follows the C++ sources:
    - [TemperatureSensor]      Heating/Sensors/TemperatureSensor.h (the class
                               declaration; its .cpp is not among the sources)
    - [SharedI2C]              Hardware/SharedI2CMaster.h, Hardware/SharedI2CClient.cpp
    - [ScanningSensorHandler]  ScanningSensorHandler.cpp, which follows
                               SharedI2CClient.cpp in the same listing
    - [Thermistor]             Heating/Sensors/Thermistor.cpp
    - [LIS3DH]                 LIS3DH.cpp, which follows Thermistor.cpp in the
                               same listing
    Line numbers are those of the listings.

    Fixed-width integers are [Z] with the wrap-around written out, [float] is
    IEEE binary32 through the Standard Library's [SpecFloat], and code that
    talks to the hardware runs in a state monad over the platform state and
    a log of the calls made on it. *)

From Stdlib Require Import ZArith List Bool Lia String Ascii.
From Stdlib Require Import Floats.SpecFloat.
Import ListNotations.

Local Open Scope Z_scope.

(* ================================================================= *)
(** * Machine integers *)

Module Machine.

(** Value of a [w]-bit unsigned integer after wrap-around. *)
Definition wrap (w z : Z) : Z := z mod 2 ^ w.

Definition uint8 (z : Z) : Z := wrap 8 z.
Definition uint16 (z : Z) : Z := wrap 16 z.
Definition uint32 (z : Z) : Z := wrap 32 z.
Definition uint64 (z : Z) : Z := wrap 64 z.

(** Conversion of an unsigned 32-bit value to [int32_t] (two's complement). *)
Definition int32 (z : Z) : Z :=
  let u := uint32 z in if u <? 2 ^ 31 then u else u - 2 ^ 32.

(** Memory of bytes after a callee stored [new] from its start: the object
    keeps its size, and what is stored are bytes. *)
Definition overwrite (old new : list Z) : list Z :=
  firstn (List.length old) (map uint8 new ++ skipn (List.length new) old).

End Machine.

(* ================================================================= *)
(** * IEEE arithmetic: [float] is binary32, [double] is binary64 *)

Module Float.

Definition float := spec_float.

Definition prec32 : Z := 24.
Definition emax32 : Z := 128.
Definition prec64 : Z := 53.
Definition emax64 : Z := 1024.

(** [(float)z] for an integer [z]. *)
Definition of_Z (z : Z) : float := binary_normalize prec32 emax32 z 0 false.
(** A double literal with an integer value, and [m * 2^e]. *)
Definition dbl_of_Z (z : Z) : float := binary_normalize prec64 emax64 z 0 false.
Definition dbl_lit (m e : Z) : float := binary_normalize prec64 emax64 m e false.

(** Promotion of a float to double (exact) and rounding of a double to float. *)
Definition to_double (x : float) : float :=
  match x with
  | S754_finite s m e => binary_round prec64 emax64 s m e
  | _ => x
  end.

Definition to_float (x : float) : float :=
  match x with
  | S754_finite s m e => binary_round prec32 emax32 s m e
  | _ => x
  end.

Definition fadd := SFadd prec32 emax32.
Definition fsub := SFsub prec32 emax32.
Definition fmul := SFmul prec32 emax32.
Definition fdiv := SFdiv prec32 emax32.
Definition dadd := SFadd prec64 emax64.
Definition dsub := SFsub prec64 emax64.
Definition dmul := SFmul prec64 emax64.
Definition ddiv := SFdiv prec64 emax64.

Definition zero : float := S754_zero false.

(** [x <= y], [x < y], [x > y]; all false when an operand is a NaN. *)
Definition le (x y : float) : bool := SFleb x y.
Definition lt (x y : float) : bool := SFltb x y.
Definition gt (x y : float) : bool := SFltb y x.

Definition is_nan (x : float) : bool :=
  match x with S754_nan => true | _ => false end.

(** Integer part of a finite float (truncation towards zero), as the cast
    of a float to an integer type takes it; 0 where the cast is undefined. *)
Definition trunc (x : float) : Z :=
  match x with
  | S754_finite s m e =>
      let a := match e with
               | Zneg p => Z.pos m / 2 ^ Z.pos p
               | _ => Z.pos m * 2 ^ e
               end in
      if s then - a else a
  | _ => 0
  end.

End Float.

(* ================================================================= *)
(** * TemperatureSensor *)

Module TemperatureSensor.
Import Machine Float.

(** Modelled from the spec: the result codes of Heating/TemperatureError.h,
    which is not among the sources.  The codes are the ones the sources use
    ([success], [notReady], [openCircuit], [badVref], [badVssa]) and the ones
    of the spec's error taxonomy ([timeout] for a stale reading, [busBusy],
    [transferFailed]); [sensorFault n] stands for every other failure code. *)
Inductive TemperatureError : Type :=
| success
| notReady
| openCircuit
| timeout
| busBusy
| transferFailed
| badVref
| badVssa
| sensorFault (code : nat).

Definition is_success (e : TemperatureError) : bool :=
  match e with success => true | _ => false end.

(** A result that is recorded as the sticky error: every code except
    [success] and the transient [notReady]. *)
Definition is_real_error (e : TemperatureError) : bool :=
  match e with success | notReady => false | _ => true end.

(** The data members of class TemperatureSensor (lines 66-71 of the header);
    the intrusive [next] pointer of the registry is left out. *)
Record TemperatureSensor : Type := mkSensor {
  sensorNumber : Z;
  sensorType : string;
  lastTemperature : float;
  whenLastRead : Z;                 (* uint32_t, a millis() value *)
  lastResult : TemperatureError;
  lastRealError : TemperatureError
}.


Definition GetLastError (s : TemperatureSensor) : TemperatureError :=
  lastRealError s.

(** Modelled from the spec: TemperatureSensor::SetResult(float, TemperatureError),
    declared in the header and defined in TemperatureSensor.cpp, which is not
    among the sources.  "[SetResult(value, code)] updates the cached value and
    timestamp only when code indicates success; it always updates last-result;
    it updates last-error only when code is itself an error (success and the
    not-ready-yet transient are never recorded as the sticky error)."
    [now] is the value of millis() at the call. *)
Definition SetResult (now : Z) (t : float) (rslt : TemperatureError)
    (s : TemperatureSensor) : TemperatureSensor :=
  {| sensorNumber := sensorNumber s;
     sensorType := sensorType s;
     lastTemperature := if is_success rslt then t else lastTemperature s;
     whenLastRead := if is_success rslt then uint32 now else whenLastRead s;
     lastResult := rslt;
     lastRealError := if is_real_error rslt then rslt else lastRealError s |}.

(** Modelled from the spec: the overload SetResult(TemperatureError) of the
    header, for a result that carries no value: the cached value stays, the
    codes are recorded as by the two-argument form. *)
Definition SetResultCode (now : Z) (rslt : TemperatureError)
    (s : TemperatureSensor) : TemperatureSensor :=
  SetResult now (lastTemperature s) rslt s.

(** Age of the cached reading on the 32-bit millisecond counter:
    [millis() - whenLastRead] in uint32_t arithmetic. *)
Definition elapsed (now whenRead : Z) : Z := uint32 (now - whenRead).


(** A call on SetResult with its arguments: the two-argument form or the
    overload without a value. *)
Inductive SetResultCall : Type :=
| WithValue (t : float) (rslt : TemperatureError)
| CodeOnly (rslt : TemperatureError).

Definition callCode (c : SetResultCall) : TemperatureError :=
  match c with WithValue _ rslt => rslt | CodeOnly rslt => rslt end.

(** The sensor after the call [c] made at time [now]. *)
Definition applyCall (now : Z) (c : SetResultCall) (s : TemperatureSensor)
    : TemperatureSensor :=
  match c with
  | WithValue t rslt => SetResult now t rslt s
  | CodeOnly rslt => SetResultCode now rslt s
  end.


End TemperatureSensor.

(* ================================================================= *)
(** * Execution model: state passing with two ways of not returning *)

Module Exec.

(** Outcome of running a piece of code: a value, a loop that did not end
    within the fuel given, or an operation whose behaviour C++ leaves
    undefined (a read outside an object, an integer division by zero). *)
Inductive Res (A : Type) : Type :=
| Ok (a : A)
| OutOfFuel
| Invalid.

Arguments Ok {A} a.
Arguments OutOfFuel {A}.
Arguments Invalid {A}.

Definition M (S A : Type) : Type := S -> Res (A * S).

Definition ret {S A : Type} (a : A) : M S A := fun s => Ok (a, s).

Definition bind {S A B : Type} (m : M S A) (k : A -> M S B) : M S B :=
  fun s =>
    match m s with
    | Ok (a, s') => k a s'
    | OutOfFuel => OutOfFuel
    | Invalid => Invalid
    end.

Definition gets {S A : Type} (f : S -> A) : M S A := fun s => Ok (f s, s).
Definition modify {S : Type} (f : S -> S) : M S unit := fun s => Ok (tt, f s).
Definition undefined {S A : Type} : M S A := fun _ => Invalid.
Definition diverge {S A : Type} : M S A := fun _ => OutOfFuel.

(** Run [m] on the second component of a pair of states. *)
Definition onSnd {S T A : Type} (m : M T A) : M (S * T) A :=
  fun st =>
    match m (snd st) with
    | Ok (a, t') => Ok (a, (fst st, t'))
    | OutOfFuel => OutOfFuel
    | Invalid => Invalid
    end.

Declare Scope exec_scope.
Delimit Scope exec_scope with exec.

Notation "x <- m ;; k" := (bind m (fun x => k))
  (at level 100, m at next level, right associativity) : exec_scope.
Notation "m ;;; k" := (bind m (fun _ => k))
  (at level 100, right associativity) : exec_scope.

End Exec.

(* ================================================================= *)
(** * The platform: everything the sources call but do not define *)

Module Platform.
Import Exec.

Inductive PinMode : Type := INPUT_PULLUP.

(** The primitives of the board support code, the RTOS and the peripherals,
    as transitions of one platform state [HW] (peripheral registers, the
    devices on the buses, the other tasks, the clock).  Their code is not
    among the sources; each is a parameter.
    - [Mutex_Take], [Mutex_Release]: the RTOS mutex inside SharedI2CMaster
      (Take returns whether the mutex was obtained within the timeout);
    - [I2C_Transfer address firstByte buffer numToWrite numToRead]:
      SharedI2CMaster::Transfer (declared in SharedI2CMaster.h), given the
      bytes of the memory that its [buffer] argument points to and returning
      success and the bytes it stored there, from the start of the buffer;
    - [Spi_Select], [Spi_TransceivePacket], [Spi_Deselect]: SharedSpiClient;
    - [digitalRead], [pinMode], [delayMicroseconds], [attachInterrupt];
    - [TaskBase_Take]: suspends the caller until it is notified, and returns
      the step-timer times of the INT1 interrupts served meanwhile;
    - [LDC1612_GetChannelResult channel]: the conversion result read from
      the inductive sensor, [None] when the read fails. *)
Class Board : Type := {
  HW : Type;
  Mutex_Take : Z -> HW -> bool * HW;
  Mutex_Release : HW -> HW;
  I2C_Transfer : Z -> Z -> list Z -> Z -> Z -> HW -> bool * list Z * HW;
  Spi_Select : Z -> HW -> bool * HW;
  Spi_TransceivePacket : list Z -> Z -> HW -> bool * list Z * HW;
  Spi_Deselect : HW -> HW;
  digitalRead_hw : Z -> HW -> bool * HW;
  pinMode_hw : Z -> PinMode -> HW -> HW;
  delayMicroseconds_hw : Z -> HW -> HW;
  attachInterrupt_hw : Z -> HW -> bool * HW;
  TaskBase_GetCallerTaskHandle : HW -> Z;
  TaskBase_Take_hw : HW -> list Z * HW;
  LDC1612_GetChannelResult : Z -> HW -> option Z * HW;
  (** build configuration and constants of absent headers *)
  ACCELEROMETER_USES_SPI : bool;
  StepClockRate : Z
}.

(** The calls made on the platform, in the order they were made. *)
Inductive Event : Type :=
| MutexTake (timeout : Z) (ok : bool)
| MutexRelease
| I2CTransfer (address firstByte : Z) (buffer : list Z)
              (numToWrite numToRead : Z) (ok : bool)
| SpiSelect (timeout : Z) (ok : bool)
| SpiTransceive (buffer : list Z) (len : Z) (ok : bool)
| SpiDeselect
| DigitalRead (pin : Z) (level : bool)
| SetPinMode (pin : Z) (mode : PinMode)
| DelayMicroseconds (us : Z)
| AttachInterrupt (pin : Z) (ok : bool)
| TaskTake (interrupts : list Z)
| ChannelResult (channel : Z) (result : option Z).

Section World.
Context {B : Board}.

Record World : Type := mkWorld {
  hw : HW;
  trace : list Event
}.

Definition step (h : HW) (e : Event) (w : World) : World :=
  {| hw := h; trace := trace w ++ [e] |}.

Definition digitalRead (pin : Z) : M World bool :=
  fun w => let '(level, h) := digitalRead_hw pin (hw w) in
           Ok (level, step h (DigitalRead pin level) w).

Definition pinMode (pin : Z) (mode : PinMode) : M World unit :=
  fun w => Ok (tt, step (pinMode_hw pin mode (hw w)) (SetPinMode pin mode) w).

Definition delayMicroseconds (us : Z) : M World unit :=
  fun w => Ok (tt, step (delayMicroseconds_hw us (hw w)) (DelayMicroseconds us) w).

Definition attachInterrupt (pin : Z) : M World bool :=
  fun w => let '(ok, h) := attachInterrupt_hw pin (hw w) in
           Ok (ok, step h (AttachInterrupt pin ok) w).

Definition TaskBase_Take : M World (list Z) :=
  fun w => let '(irqs, h) := TaskBase_Take_hw (hw w) in
           Ok (irqs, step h (TaskTake irqs) w).

End World.

End Platform.

(* ================================================================= *)
(** * SharedI2CMaster and SharedI2CClient *)

Module SharedI2C.
Import Machine Exec Platform.
Local Open Scope exec_scope.

Section WithBoard.
Context {B : Board}.

(** SharedI2CMaster::Take, line 37 of SharedI2CMaster.h: [mutex.Take(timeout)]. *)
Definition Take (timeout : Z) : M World bool :=
  fun w => let '(ok, h) := Mutex_Take timeout (hw w) in
           Ok (ok, step h (MutexTake timeout ok) w).

(** SharedI2CMaster::Release, line 38: [mutex.Release()]. *)
Definition Release : M World unit :=
  fun w => Ok (tt, step (Mutex_Release (hw w)) MutexRelease w).

(** SharedI2CMaster::Transfer, line 34 (declaration only): the call is
    logged with its arguments and handed to the platform; the bytes the
    platform answers with are what the master stored in the buffer. *)
Definition MasterTransfer (address firstByte : Z) (buffer : list Z)
    (numToWrite numToRead : Z) : M World (bool * list Z) :=
  fun w =>
    let '(ok, buffer', h) :=
      I2C_Transfer address firstByte buffer numToWrite numToRead (hw w) in
    Ok ((ok, overwrite buffer buffer'),
        step h (I2CTransfer address firstByte buffer numToWrite numToRead ok) w).

(** class SharedI2CClient: the master is the one of the board, the bound
    address is the only state. *)
Record SharedI2CClient : Type := mkClient {
  address : Z
}.

(** SharedI2CClient::Transfer, SharedI2CClient.cpp lines 16-25.  [buffer] is
    the content of the memory the pointer argument points to, from its
    first byte on; the result carries the content afterwards.  [*buffer] is
    evaluated after the mutex was obtained; on an empty object it reads
    outside it. *)
Definition Transfer (c : SharedI2CClient) (buffer : list Z)
    (numToWrite numToRead timeout : Z) : M World (bool * list Z) :=
  took <- Take timeout ;;
  if negb took then ret (false, buffer)
  else
    match buffer with
    | [] => undefined
    | first :: rest =>
        r <- MasterTransfer (address c) first rest numToWrite numToRead ;;
        Release ;;;
        ret (fst r, first :: snd r)
    end.

(** The platform state once the mutex was asked for. *)
Definition afterTake (timeout : Z) (w : World) : HW :=
  snd (Mutex_Take timeout (hw w)).

(** What the bus master does with the transfer the client hands it. *)
Definition masterRun (c : SharedI2CClient) (first : Z) (rest : list Z)
    (numToWrite numToRead timeout : Z) (w : World) : bool * list Z * HW :=
  I2C_Transfer (address c) first rest numToWrite numToRead (afterTake timeout w).

End WithBoard.

End SharedI2C.

(* ================================================================= *)
(** * ScanningSensorHandler *)

Module ScanningSensorHandler.
Import Machine Exec Platform.
Local Open Scope exec_scope.

Section WithBoard.
Context {B : Board}.

(** The LDC1612 driver object; its class is not among the sources. *)
Record LDC1612 : Type := mkLDC1612 {
  ldcAddress : Z
}.

(** LDC1612::GetChannelResult(channel, val): [Some val] when it returns
    true with the uint32_t [val] filled in. *)
Definition GetChannelResult (s : LDC1612) (channel : Z) : M World (option Z) :=
  fun w =>
    let '(r, h) := LDC1612_GetChannelResult channel (hw w) in
    let r32 := option_map uint32 r in
    Ok (r32, step h (ChannelResult channel r32) w).

(** ScanningSensorHandler::IsPresent, lines 72-75; [sensor] is the
    file-static pointer, [None] for nullptr. *)
Definition IsPresent (sensor : option LDC1612) : bool :=
  match sensor with Some _ => true | None => false end.

(** ScanningSensorHandler::GetReading, lines 77-91. *)
Definition GetReading (sensor : option LDC1612) : M World Z :=
  match sensor with
  | Some s =>
      r <- GetChannelResult s 0 ;;
      match r with
      | Some val =>
          if Z.shiftr val 28 =? 0 then ret val else ret 0
      | None => ret 0
      end
  | None => ret 0
  end.

End WithBoard.

End ScanningSensorHandler.

(* ================================================================= *)
(** * LIS3DH accelerometer driver *)

Module AccelerometerType.

Inductive t : Type := LIS3DH | LIS3DSH | LIS2DW.

Definition isLIS3DH (a : t) : bool :=
  match a with LIS3DH => true | _ => false end.

End AccelerometerType.

Module LIS3DH.
Import Machine Exec Platform SharedI2C.
Local Open Scope exec_scope.

(** constexpr uint8_t FifoInterruptLevel = 24 (line 215 of the listing) *)
Definition FifoInterruptLevel : Z := 24.
(** constexpr uint32_t Lis3dSpiTimeout = 25, Lis3dI2CTimeout = 25 *)
Definition Lis3dSpiTimeout : Z := 25.
Definition Lis3dI2CTimeout : Z := 25.

(** The enumerators of [enum class LisRegister : uint8_t] that the modelled
    functions name.  LIS3DH.h is not among the sources, so their values are
    parameters. *)
Class LisRegister : Type := {
  Ctrl_0x20 : Z;
  OutXL : Z;
  FifoSource : Z
}.

(** Data members of class LIS3DH that the modelled functions use.
    [transferBuffer] is the struct of a register byte followed by the data
    array, so that [&transferBuffer.reg] points to [reg :: data]. *)
Record State : Type := mkState {
  client : SharedI2CClient;
  accelerometerType : AccelerometerType.t;
  int1Pin : Z;
  ctrlReg_0x20 : Z;                     (* uint8_t *)
  transferBuffer_reg : Z;               (* uint8_t *)
  transferBuffer_data : list Z;         (* uint8_t [] *)
  taskWaiting : option Z;               (* TaskHandle, None for nullptr *)
  totalNumRead : Z;                     (* uint32_t *)
  firstInterruptTime : Z;               (* uint32_t *)
  lastInterruptTime : Z;                (* uint32_t *)
  interruptError : bool
}.

Definition set_reg (v : Z) (d : State) : State :=
  mkState (client d) (accelerometerType d) (int1Pin d) (ctrlReg_0x20 d)
    v (transferBuffer_data d) (taskWaiting d) (totalNumRead d)
    (firstInterruptTime d) (lastInterruptTime d) (interruptError d).

Definition set_data (v : list Z) (d : State) : State :=
  mkState (client d) (accelerometerType d) (int1Pin d) (ctrlReg_0x20 d)
    (transferBuffer_reg d) v (taskWaiting d) (totalNumRead d)
    (firstInterruptTime d) (lastInterruptTime d) (interruptError d).

Definition set_taskWaiting (v : option Z) (d : State) : State :=
  mkState (client d) (accelerometerType d) (int1Pin d) (ctrlReg_0x20 d)
    (transferBuffer_reg d) (transferBuffer_data d) v (totalNumRead d)
    (firstInterruptTime d) (lastInterruptTime d) (interruptError d).

Definition set_totalNumRead (v : Z) (d : State) : State :=
  mkState (client d) (accelerometerType d) (int1Pin d) (ctrlReg_0x20 d)
    (transferBuffer_reg d) (transferBuffer_data d) (taskWaiting d) v
    (firstInterruptTime d) (lastInterruptTime d) (interruptError d).

Definition set_firstInterruptTime (v : Z) (d : State) : State :=
  mkState (client d) (accelerometerType d) (int1Pin d) (ctrlReg_0x20 d)
    (transferBuffer_reg d) (transferBuffer_data d) (taskWaiting d)
    (totalNumRead d) v (lastInterruptTime d) (interruptError d).

Definition set_lastInterruptTime (v : Z) (d : State) : State :=
  mkState (client d) (accelerometerType d) (int1Pin d) (ctrlReg_0x20 d)
    (transferBuffer_reg d) (transferBuffer_data d) (taskWaiting d)
    (totalNumRead d) (firstInterruptTime d) v (interruptError d).

Definition set_interruptError (v : bool) (d : State) : State :=
  mkState (client d) (accelerometerType d) (int1Pin d) (ctrlReg_0x20 d)
    (transferBuffer_reg d) (transferBuffer_data d) (taskWaiting d)
    (totalNumRead d) (firstInterruptTime d) (lastInterruptTime d) v.

(** The bytes at [&transferBuffer.reg]. *)
Definition transferBuffer (d : State) : list Z :=
  transferBuffer_reg d :: transferBuffer_data d.

(** Store back what a transfer left at [&transferBuffer.reg]. *)
Definition set_transferBuffer (b : list Z) (d : State) : State :=
  match b with
  | r :: dat => set_data dat (set_reg r d)
  | [] => d
  end.

(** LIS3DH::Int1Isr, lines 627-637, entered at step-timer time [now].  Its
    notification of the waiting task is what lets TaskBase::Take return. *)
Definition Int1Isr (now : Z) (d : State) : State :=
  let d1 := if totalNumRead d =? 0 then set_firstInterruptTime now d else d in
  set_taskWaiting None (set_lastInterruptTime now d1).

Section WithBoard.
Context {B : Board} {R : LisRegister}.

(** The driver runs on its own members and the platform. *)
Definition Sys : Type := State * World.

Definition getD {A : Type} (f : State -> A) : M Sys A :=
  gets (fun s => f (fst s)).
Definition setD (f : State -> State) : M Sys unit :=
  modify (fun s => (f (fst s), snd s)).
Definition io {A : Type} (m : M World A) : M Sys A := onSnd m.

(** SharedSpiClient::Select, TransceivePacket and Deselect (SPI build). *)
Definition Select (timeout : Z) : M World bool :=
  fun w => let '(ok, h) := Spi_Select timeout (hw w) in
           Ok (ok, step h (SpiSelect timeout ok) w).

Definition TransceivePacket (buffer : list Z) (len : Z) : M World (bool * list Z) :=
  fun w => let '(ok, buffer', h) := Spi_TransceivePacket buffer len (hw w) in
           Ok ((ok, overwrite buffer buffer'),
               step h (SpiTransceive buffer len ok) w).

Definition Deselect : M World unit :=
  fun w => Ok (tt, step (Spi_Deselect (hw w)) SpiDeselect w).

(** The condition [(n < 2 || accelerometerType != AccelerometerType::LIS3DH)]
    under which the register byte goes out without an auto-increment bit. *)
Definition plainAddress (ty : AccelerometerType.t) (n : Z) : bool :=
  (n <? 2) || negb (AccelerometerType.isLIS3DH ty).

(** LIS3DH::ReadRegisters, lines 563-586. *)
Definition ReadRegisters (reg numToRead : Z) : M Sys bool :=
  if ACCELEROMETER_USES_SPI then
    sel <- io (Select Lis3dSpiTimeout) ;;
    if negb sel then ret false
    else
      io (delayMicroseconds 1) ;;;
      ty <- getD accelerometerType ;;
      setD (set_reg (uint8 (Z.lor (uint8 reg)
                              (if plainAddress ty numToRead then 128 else 192)))) ;;;
      buf <- getD transferBuffer ;;
      r <- io (TransceivePacket buf (1 + numToRead)) ;;
      setD (set_transferBuffer (snd r)) ;;;
      io Deselect ;;;
      ret (fst r)
  else
    ty <- getD accelerometerType ;;
    let regAddr := if plainAddress ty numToRead then uint8 reg
                   else uint8 (Z.lor (uint8 reg) 128) in
    setD (set_reg regAddr) ;;;
    buf <- getD transferBuffer ;;
    c <- getD client ;;
    r <- io (Transfer c buf 1 numToRead Lis3dI2CTimeout) ;;
    setD (set_transferBuffer (snd r)) ;;;
    ret (fst r).

(** LIS3DH::WriteRegisters, lines 588-609. *)
Definition WriteRegisters (reg numToWrite : Z) : M Sys bool :=
  if uint8 reg <? 30 then ret false
  else if ACCELEROMETER_USES_SPI then
    sel <- io (Select Lis3dSpiTimeout) ;;
    if negb sel then ret false
    else
      ty <- getD accelerometerType ;;
      setD (set_reg (if plainAddress ty numToWrite then uint8 reg
                     else uint8 (Z.lor (uint8 reg) 64))) ;;;
      buf <- getD transferBuffer ;;
      r <- io (TransceivePacket buf (1 + numToWrite)) ;;
      setD (set_transferBuffer (snd r)) ;;;
      io Deselect ;;;
      ret (fst r)
  else
    ty <- getD accelerometerType ;;
    let regAddr := if plainAddress ty numToWrite then uint8 reg
                   else uint8 (Z.lor (uint8 reg) 128) in
    setD (set_reg regAddr) ;;;
    buf <- getD transferBuffer ;;
    c <- getD client ;;
    r <- io (Transfer c buf (1 + numToWrite) 0 Lis3dI2CTimeout) ;;
    setD (set_transferBuffer (snd r)) ;;;
    ret (fst r).

(** LIS3DH::ReadRegister, lines 611-619: [Some val] when it returns true
    with [val = transferBuffer.data[0]], [None] when it returns false and
    leaves [val] alone. *)
Definition ReadRegister (reg : Z) : M Sys (option Z) :=
  ok <- ReadRegisters reg 1 ;;
  if ok then
    dat <- getD transferBuffer_data ;;
    match dat with
    | v :: _ => ret (Some v)
    | [] => undefined
    end
  else ret None.

(** LIS3DH::WriteRegister, lines 621-625. *)
Definition WriteRegister (reg val : Z) : M Sys bool :=
  dat <- getD transferBuffer_data ;;
  match dat with
  | _ :: rest => setD (set_data (uint8 val :: rest)) ;;; WriteRegisters reg 1
  | [] => undefined
  end.

(** The two loops of lines 459-465 and 473-479 that empty the FIFO:
    [more val] is the loop's test on the FIFO source register.  The result
    is false when the loop body executed [return false], true when the
    loop was left because the status read failed or reported no more data. *)
Fixpoint clearFifo (more : Z -> bool) (fuel : nat) : M Sys bool :=
  match fuel with
  | O => diverge
  | S n =>
      r <- ReadRegister FifoSource ;;
      match r with
      | Some val =>
          if more val then
            ok <- ReadRegisters OutXL 6 ;;
            if ok then clearFifo more n else ret false
          else ret true
      | None => ret true
      end
  end.

(** The loop tests: [(val & (1u << 5)) == 0] and [(val & 0x3F) != 0]. *)
Definition fifoNotEmpty (ty : AccelerometerType.t) (val : Z) : bool :=
  match ty with
  | AccelerometerType.LIS2DW => negb (Z.land val 63 =? 0)
  | _ => Z.land val (Z.shiftl 1 5) =? 0
  end.

(** The value written to control register 0x20: [ctrlReg_0x20], with
    [axes & 7] or-ed in on the LIS3DH and LIS3DSH. *)
Definition ctrlRegValue (ty : AccelerometerType.t) (ctrl axes : Z) : Z :=
  match ty with
  | AccelerometerType.LIS2DW => ctrl
  | _ => uint8 (Z.lor ctrl (Z.land axes 7))
  end.

(** Lines 499-500. *)
Definition enableAndAttach (value pin : Z) : M Sys bool :=
  written <- WriteRegister Ctrl_0x20 value ;;
  if written then io (attachInterrupt pin) else ret false.

(** Lines 485-500: what StartCollecting does once the FIFO loop is left;
    [value] is the local [ctrlRegValue]. *)
Definition armCollection (value : Z) : M Sys bool :=
  pin <- getD int1Pin ;;
  io (pinMode pin INPUT_PULLUP) ;;;
  setD (set_totalNumRead 0) ;;;
  io (delayMicroseconds 5) ;;;
  level <- io (digitalRead pin) ;;
  setD (set_interruptError level) ;;;
  if level then ret false else enableAndAttach value pin.

(** LIS3DH::StartCollecting, lines 448-501. *)
Definition StartCollecting (fuel : nat) (axes : Z) : M Sys bool :=
  ctrl <- getD ctrlReg_0x20 ;;
  ty <- getD accelerometerType ;;
  cleared <- clearFifo (fifoNotEmpty ty) fuel ;;
  if cleared then armCollection (ctrlRegValue ty ctrl axes) else ret false.

(** LIS3DH::StopCollecting, lines 558-561. *)
Definition StopCollecting : M Sys unit :=
  WriteRegister Ctrl_0x20 0 ;;; ret tt.

(** What CollectData hands back: the return value and the three output
    parameters, [None] for one the call did not assign. *)
Record Collected : Type := mkCollected {
  sampleCount : Z;
  collectedData : option (list Z);
  dataRate : option Z;
  overflowed : option bool
}.

Definition nothingCollected : Collected := mkCollected 0 None None None.

(** Lines 508-511: wait until INT1 reads high.  The interrupts served while
    the task is suspended run Int1Isr on the driver. *)
Fixpoint waitForData (fuel : nat) : M Sys unit :=
  match fuel with
  | O => diverge
  | S n =>
      pin <- getD int1Pin ;;
      level <- io (digitalRead pin) ;;
      if level then ret tt
      else
        irqs <- io TaskBase_Take ;;
        setD (fun d => fold_left (fun acc now => Int1Isr now acc) irqs d) ;;;
        waitForData n
  end.

(** Lines 521-537: the number of samples the FIFO source register reports. *)
Definition samplesAvailable (ty : AccelerometerType.t) (fifoStatus : Z) : Z :=
  match ty with
  | AccelerometerType.LIS2DW => Z.land fifoStatus 63
  | _ =>
      let n := Z.land fifoStatus 31 in
      if (n =? 0) && (Z.land fifoStatus 32 =? 0) then 32 else n
  end.

(** Line 551: the running data rate, a uint16_t; the quotient is taken in
    uint64_t and is undefined when the two interrupt times coincide. *)
Definition computeDataRate (d : State) : M Sys Z :=
  if totalNumRead d =? 0 then ret 0
  else
    let dt := uint32 (lastInterruptTime d - firstInterruptTime d) in
    if dt =? 0 then undefined
    else ret (uint16 (uint64 (totalNumRead d * uint64 StepClockRate) / dt)).

(** Lines 507-512: register the caller as the waiting task and wait. *)
Definition awaitInterrupt (fuel : nat) : M Sys unit :=
  h <- io (gets (fun w => TaskBase_GetCallerTaskHandle (hw w))) ;;
  setD (set_taskWaiting (Some h)) ;;;
  waitForData fuel ;;;
  setD (set_taskWaiting None).

(** Lines 549-553, after a burst read that succeeded. *)
Definition deliverSamples (fifoStatus numToRead : Z) : M Sys Collected :=
  dat <- getD transferBuffer_data ;;
  d <- getD (fun d => d) ;;
  rate <- computeDataRate d ;;
  setD (set_totalNumRead (uint32 (totalNumRead d + numToRead))) ;;;
  ret (mkCollected numToRead (Some dat) (Some rate)
         (Some (negb (Z.land fifoStatus 64 =? 0)))).

(** LIS3DH::CollectData, lines 504-555. *)
Definition CollectData (fuel : nat) : M Sys Collected :=
  awaitInterrupt fuel ;;;
  st <- ReadRegister FifoSource ;;
  match st with
  | None => ret nothingCollected
  | Some fifoStatus =>
      ty <- getD accelerometerType ;;
      let numToRead := samplesAvailable ty fifoStatus in
      if numToRead =? 0 then ret (mkCollected numToRead None None None)
      else
        ok <- ReadRegisters OutXL (6 * numToRead) ;;
        if negb ok then ret nothingCollected
        else deliverSamples fifoStatus numToRead
  end.

(** ** Vocabulary for the properties of the driver *)

(** A request for the bus (mutex or chip select) and whether it was granted. *)
Definition busRequest (e : Event) : option bool :=
  match e with
  | MutexTake _ granted => Some granted
  | SpiSelect _ granted => Some granted
  | _ => None
  end.

(** A transfer on the bus: the number of bytes sent (register byte
    included; for SPI the length of the packet) and whether it succeeded. *)
Definition busTransfer (e : Event) : option (Z * bool) :=
  match e with
  | I2CTransfer _ _ _ numToWrite _ ok => Some (numToWrite, ok)
  | SpiTransceive _ len ok => Some (len, ok)
  | _ => None
  end.




(** The level INT1 shows to the check of line 493, made from the state in
    which the FIFO loop was left. *)
Definition int1Level (d1 : State) (w1 : World) : bool * HW :=
  digitalRead_hw (int1Pin d1)
    (delayMicroseconds_hw 5 (pinMode_hw (int1Pin d1) INPUT_PULLUP (hw w1))).

(** The driver and the world just after the check of INT1. *)
Definition afterCheck (d1 : State) (w1 : World) : Sys :=
  (set_interruptError (fst (int1Level d1 w1)) (set_totalNumRead 0 d1),
   mkWorld (snd (int1Level d1 w1))
     (trace w1 ++ [SetPinMode (int1Pin d1) INPUT_PULLUP;
                   DelayMicroseconds 5;
                   DigitalRead (int1Pin d1) (fst (int1Level d1 w1))])).



End WithBoard.

End LIS3DH.

(* ================================================================= *)
(** * Thermistor *)

Module Thermistor.
Import Machine Float TemperatureSensor.

Inductive GCodeResult : Type := ok | error.

(** A snapshot of a ThermistorAveragingFilter: what IsValid(), GetSum()
    (uint32_t) and NumAveraged() return. *)
Record ThermistorAveragingFilter : Type := mkFilter {
  IsValid : bool;
  GetSum : Z;
  NumAveraged : Z
}.

(** CanMessageGenericParser as Configure uses it: [GetFloatParam c] and
    [GetIntValue c] are [Some v] when parameter [c] is present. *)
Record CanMessageGenericParser : Type := mkParser {
  GetFloatParam : ascii -> option float;
  GetIntValue : ascii -> option Z
}.

(** The build configuration, the constants of absent headers and the
    functions Thermistor.cpp calls without defining them:
    [log], [logf] and [rintf] of the C library, [constrain], the shared
    PT100 conversion TemperatureSensor::GetPT100Temperature (declared at
    line 61 of the header), SensorWithPort::ConfigurePort ([None] when it
    returns false, else the port and the new value of [seen]) and
    Platform::GetAveragingFilterIndex. *)
Class Target : Type := {
  HAS_VREF_MONITOR : bool;
  DUET_NG : bool;
  AdcOversampleBits : Z;
  AdcBits : Z;
  AdcRange : Z;
  VrefFilterIndex : Z;
  VssaFilterIndex : Z;
  ABS_ZERO : float;
  BadErrorTemperature : float;
  MinimumConnectedTemperature : float;
  log : float -> float;
  logf : float -> float;
  rintf : float -> float;
  constrain : float -> float -> float -> float;
  GetPT100Temperature : Z -> float * TemperatureError;
  ConfigurePort : CanMessageGenericParser -> Z -> option (Z * bool);
  GetAveragingFilterIndex : Z -> Z
}.

(** Data members of class Thermistor, with the TemperatureSensor base and
    the port of SensorWithPort. *)
Record Thermistor : Type := mkThermistor {
  sensor : TemperatureSensor;
  port : Z;
  adcFilterChannel : Z;
  r25 : float;
  beta : float;
  shC : float;
  seriesR : float;
  isPT1000 : bool;
  shA : float;
  shB : float;
  adcLowOffset : Z;
  adcHighOffset : Z
}.

(** What Configure leaves in [reply]. *)
Inductive Reply : Type :=
| NothingWritten
| ErrorMessage
| Pt1000Summary (seriesR : float) (offsets : option (Z * Z))
| ThermistorSummary (r25 beta shC seriesR : float) (offsets : option (Z * Z)).

Section WithTarget.
Context {T : Target}.

Definition half : float := dbl_lit 1 (-1).
Definition one : float := dbl_of_Z 1.

(** Thermistor::CalcDerivedParameters, lines 186-191. *)
Definition CalcDerivedParameters (th : Thermistor) : Thermistor :=
  let shB' := to_float (ddiv one (to_double (beta th))) in
  let lnR25 := logf (r25 th) in
  let shA' :=
    to_float
      (dsub
         (dsub (ddiv one (dsub (dbl_of_Z 25) (to_double ABS_ZERO)))
               (to_double (fmul shB' lnR25)))
         (to_double (fmul (fmul (fmul (shC th) lnR25) lnR25) lnR25))) in
  mkThermistor (sensor th) (port th) (adcFilterChannel th) (r25 th) (beta th)
    (shC th) (seriesR th) (isPT1000 th) shA' shB'
    (adcLowOffset th) (adcHighOffset th).

(** [parser.GetFloatParam(c, var)]: the returned flag and the new value of
    [var]. *)
Definition getFloat (parser : CanMessageGenericParser) (c : ascii) (var : float)
    : bool * float :=
  match GetFloatParam parser c with
  | Some v => (true, v)
  | None => (false, var)
  end.

Definition getInt (parser : CanMessageGenericParser) (c : ascii) (var : Z)
    : bool * Z :=
  match GetIntValue parser c with
  | Some v => (true, v)
  | None => (false, var)
  end.

(** Lines 42-55: the parameters of a thermistor, given [seen] so far. *)
Definition configureThermistor (parser : CanMessageGenericParser)
    (seen : bool) (th : Thermistor) : bool * Thermistor :=
  let '(sB, beta1) := getFloat parser "B" (beta th) in
  let seen := sB || seen in
  let shC1 := if seen then zero else shC th in
  let '(sC, shC2) := getFloat parser "C" shC1 in
  let seen := sC || seen in
  let '(sT, r25') := getFloat parser "T" (r25 th) in
  let seen := sT || seen in
  let th' :=
    mkThermistor (sensor th) (port th) (adcFilterChannel th) r25' beta1 shC2
      (seriesR th) (isPT1000 th) (shA th) (shB th)
      (adcLowOffset th) (adcHighOffset th) in
  (seen, if seen then CalcDerivedParameters th' else th').

(** Lines 57-60, compiled when there is no VREF monitor. *)
Definition configureOffsets (parser : CanMessageGenericParser)
    (seen : bool) (th : Thermistor) : bool * Thermistor :=
  let '(sL, low) := getInt parser "L" (adcLowOffset th) in
  let seen := sL || seen in
  let '(sH, high) := getInt parser "H" (adcHighOffset th) in
  let seen := sH || seen in
  (seen,
   mkThermistor (sensor th) (port th) (adcFilterChannel th) (r25 th) (beta th)
     (shC th) (seriesR th) (isPT1000 th) (shA th) (shB th) low high).

Definition offsetsOf (th : Thermistor) : option (Z * Z) :=
  if HAS_VREF_MONITOR then None
  else Some (adcLowOffset th, adcHighOffset th).

(** The outcome of Configure: the result code, the sensor, the reply and
    the filter channel that was initialised with its argument, if any. *)
Record Configured : Type := mkConfigured {
  result : GCodeResult;
  configured : Thermistor;
  reply : Reply;
  filterInit : option (Z * Z)
}.

(** Thermistor::Configure, lines 33-88. *)
Definition Configure (parser : CanMessageGenericParser) (th : Thermistor)
    : Configured :=
  match ConfigurePort parser (port th) with
  | None => mkConfigured error th ErrorMessage None
  | Some (port1, seen0) =>
      let '(sR, seriesR1) := getFloat parser "R" (seriesR th) in
      let seen1 := sR || seen0 in
      let th1 :=
        mkThermistor (sensor th) port1 (adcFilterChannel th) (r25 th) (beta th)
          (shC th) seriesR1 (isPT1000 th) (shA th) (shB th)
          (adcLowOffset th) (adcHighOffset th) in
      let '(seen2, th2) :=
        if negb (isPT1000 th1) then configureThermistor parser seen1 th1
        else (seen1, th1) in
      let '(seen3, th3) :=
        if HAS_VREF_MONITOR then (seen2, th2)
        else configureOffsets parser seen2 th2 in
      if seen3 then
        let channel := GetAveragingFilterIndex (port th3) in
        let th4 :=
          mkThermistor (sensor th3) (port th3) channel (r25 th3) (beta th3)
            (shC th3) (seriesR th3) (isPT1000 th3) (shA th3) (shB th3)
            (adcLowOffset th3) (adcHighOffset th3) in
        mkConfigured ok th4 NothingWritten
          (if 0 <=? channel then Some (channel, Z.shiftl 1 AdcBits - 1) else None)
      else
        mkConfigured ok th3
          (if isPT1000 th3 then Pt1000Summary (seriesR th3) (offsetsOf th3)
           else ThermistorSummary (r25 th3) (beta th3) (shC th3) (seriesR th3)
                  (offsetsOf th3))
          None
  end.

(** [sum / (num >> AdcOversampleBits)] in unsigned arithmetic, converted to
    int32_t; [None] for the division by zero. *)
Definition averaged (sum num : Z) : option Z :=
  let d := Z.shiftr num AdcOversampleBits in
  if d =? 0 then None else Some (int32 (uint32 sum / d)).

(** constexpr int32_t maxDrop, line 107. *)
Definition maxDrop : Z :=
  (Z.shiftl 4096 AdcOversampleBits * 15) / 492 + Z.shiftl 100 AdcOversampleBits.

(** [denom], line 128 or 131. *)
Definition denominator (averagedVrefReading averagedTempReading : Z) : float :=
  if HAS_VREF_MONITOR then of_Z (averagedVrefReading - averagedTempReading)
  else to_float (dsub (to_double (of_Z (averagedVrefReading - averagedTempReading)))
                      half).

(** [resistance], line 141 or lines 144-148. *)
Definition resistanceOf (th : Thermistor)
    (averagedVssaReading averagedTempReading : Z) (denom : float) : float :=
  if HAS_VREF_MONITOR then
    fdiv (fmul (seriesR th) (of_Z (averagedTempReading - averagedVssaReading))) denom
  else
    let r :=
      to_float
        (ddiv (dmul (to_double (seriesR th))
                    (dadd (to_double (of_Z (averagedTempReading - averagedVssaReading)))
                          half))
              (to_double denom)) in
    if DUET_NG then to_float (dsub (to_double r) one) else r.

(** [temp], lines 161-163: the Steinhart-Hart temperature in Celsius. *)
Definition steinhartHart (th : Thermistor) (resistance : float) : float :=
  let logResistance := log resistance in
  let recipT :=
    fadd (fadd (shA th) (fmul (shB th) logResistance))
         (fmul (fmul (fmul (shC th) logResistance) logResistance) logResistance) in
  to_float (if gt recipT zero
            then dadd (ddiv one (to_double recipT)) (to_double ABS_ZERO)
            else to_double BadErrorTemperature).

(** Lines 133-175: from the averaged readings to the call on SetResult. *)
Definition convertReading (th : Thermistor)
    (averagedVssaReading averagedVrefReading averagedTempReading : Z)
    : SetResultCall :=
  let denom := denominator averagedVrefReading averagedTempReading in
  if le denom zero then WithValue ABS_ZERO openCircuit
  else
    let resistance := resistanceOf th averagedVssaReading averagedTempReading denom in
    if isPT1000 th then
      let ohmsx100 :=
        uint16 (trunc (rintf (constrain (fmul resistance (of_Z 10))
                                        zero (of_Z 65535)))) in
      let '(t, sts) := GetPT100Temperature ohmsx100 in
      WithValue t sts
    else
      let temp := steinhartHart th resistance in
      if lt temp MinimumConnectedTemperature
      then WithValue ABS_ZERO openCircuit
      else WithValue temp success.

(** The averaged readings [(vssa, vref, temp)] of lines 101-102 and 124, or
    of lines 130 and 143 without a VREF monitor; [None] when a division is
    by zero. *)
Definition averagedReadings (filters : Z -> ThermistorAveragingFilter)
    (th : Thermistor) : option (Z * Z * Z) :=
  let tempFilter := filters (adcFilterChannel th) in
  match averaged (GetSum tempFilter) (NumAveraged tempFilter) with
  | None => None
  | Some temp =>
      if HAS_VREF_MONITOR then
        let vrefFilter := filters VrefFilterIndex in
        let vssaFilter := filters VssaFilterIndex in
        match averaged (GetSum vssaFilter) (NumAveraged vssaFilter),
              averaged (GetSum vrefFilter) (NumAveraged vssaFilter) with
        | Some vssa, Some vref => Some (vssa, vref, temp)
        | _, _ => None
        end
      else Some (2 * adcLowOffset th, AdcRange + 2 * adcHighOffset th, temp)
  end.

(** Thermistor::Poll, lines 91-183, up to its call on SetResult: [filters]
    is what Platform::GetAdcFilter gives at the time of the call. *)
Definition pollCall (filters : Z -> ThermistorAveragingFilter)
    (th : Thermistor) : option SetResultCall :=
  let tempFilter := filters (adcFilterChannel th) in
  if HAS_VREF_MONITOR then
    let vrefFilter := filters VrefFilterIndex in
    let vssaFilter := filters VssaFilterIndex in
    if IsValid tempFilter && IsValid vrefFilter && IsValid vssaFilter then
      match averaged (GetSum vssaFilter) (NumAveraged vssaFilter),
            averaged (GetSum vrefFilter) (NumAveraged vssaFilter) with
      | Some vssa, Some vref =>
          if vref <? Z.shiftl 4096 AdcOversampleBits - maxDrop
          then Some (CodeOnly badVref)
          else if maxDrop <? vssa then Some (CodeOnly badVssa)
          else
            match averaged (GetSum tempFilter) (NumAveraged tempFilter) with
            | Some temp => Some (convertReading th vssa vref temp)
            | None => None
            end
      | _, _ => None
      end
    else Some (CodeOnly notReady)
  else if IsValid tempFilter then
    match averaged (GetSum tempFilter) (NumAveraged tempFilter) with
    | Some temp =>
        Some (convertReading th (2 * adcLowOffset th)
                (AdcRange + 2 * adcHighOffset th) temp)
    | None => None
    end
  else Some (CodeOnly notReady).


(** The filters are valid and the reference readings pass the checks of
    lines 109-116, so that Poll reaches the conversion. *)
Definition readingsUsable (filters : Z -> ThermistorAveragingFilter)
    (th : Thermistor) (vssa vref : Z) : bool :=
  IsValid (filters (adcFilterChannel th)) &&
  (if HAS_VREF_MONITOR then
     IsValid (filters VrefFilterIndex) && IsValid (filters VssaFilterIndex) &&
     negb (vref <? Z.shiftl 4096 AdcOversampleBits - maxDrop) &&
     negb (maxDrop <? vssa)
   else true).

Definition present {A : Type} (o : option A) : bool :=
  match o with Some _ => true | None => false end.

(** The two edge cases of the conversion: the denominator is not positive,
    or, on a thermistor, the Steinhart-Hart temperature lies below
    MinimumConnectedTemperature. *)
Definition openCircuitCase (th : Thermistor) (vssa vref temp : Z) : Prop :=
  let denom := denominator vref temp in
  le denom zero = true \/
  (le denom zero = false /\ isPT1000 th = false /\
   lt (steinhartHart th (resistanceOf th vssa temp denom))
      MinimumConnectedTemperature = true).

End WithTarget.

End Thermistor.

(* ================================================================= *)
(** * Test doubles: a scripted board and a fixed target *)

Module Mock.
Import Machine Float Exec Platform.

(** A board whose bus answers from a script: each transfer takes the next
    entry (success flag, bytes stored at the start of the buffer), and
    fails once the script is used up.  The mutex is free or held by another
    task for good; INT1 has a level, which a suspension of the task raises. *)
Record MockHW : Type := mkMock {
  mutexFree : bool;
  responses : list (bool * list Z);
  int1 : bool;
  ldcResult : option Z
}.

Definition answer (buffer : list Z) (h : MockHW) : bool * list Z * MockHW :=
  match responses h with
  | [] => (false, [], h)
  | (ok, dat) :: rest =>
      (ok, dat, mkMock (mutexFree h) rest (int1 h) (ldcResult h))
  end.

#[export] Instance board : Board := {|
  HW := MockHW;
  Mutex_Take := fun _ h => (mutexFree h, h);
  Mutex_Release := fun h => h;
  I2C_Transfer := fun _ _ buffer _ _ h => answer buffer h;
  Spi_Select := fun _ h => (mutexFree h, h);
  Spi_TransceivePacket := fun buffer _ h => answer buffer h;
  Spi_Deselect := fun h => h;
  digitalRead_hw := fun _ h => (int1 h, h);
  pinMode_hw := fun _ _ h => h;
  delayMicroseconds_hw := fun _ h => h;
  attachInterrupt_hw := fun _ h => (true, h);
  TaskBase_GetCallerTaskHandle := fun _ => 1;
  TaskBase_Take_hw := fun h =>
    ([1000], mkMock (mutexFree h) (responses h) true (ldcResult h));
  LDC1612_GetChannelResult := fun _ h => (ldcResult h, h);
  ACCELEROMETER_USES_SPI := false;
  StepClockRate := 750000
|}.

(** The register addresses of the LIS3DH data sheet. *)
#[export] Instance registers : LIS3DH.LisRegister := {|
  LIS3DH.Ctrl_0x20 := 32;
  LIS3DH.OutXL := 40;
  LIS3DH.FifoSource := 47
|}.

Definition world (h : MockHW) : World := mkWorld h [].

(** An LIS3DH at address 0x18 with INT1 on pin 7 and a 192-byte buffer. *)
Definition lis3dh (ty : AccelerometerType.t) : LIS3DH.State :=
  LIS3DH.mkState (SharedI2C.mkClient 24) ty 7 112 0 (repeat 0 192)
    None 0 0 0 false.

(** A target with a VREF monitor and two bits of oversampling.  [logf]
    answers 23/2, close to the logarithm of 100 kOhm; [log] is a step with
    the values 23/2 below 1 MOhm and 15 (about 3.3 MOhm) from there on. *)
#[export] Instance target : Thermistor.Target := {|
  Thermistor.HAS_VREF_MONITOR := true;
  Thermistor.DUET_NG := false;
  Thermistor.AdcOversampleBits := 2;
  Thermistor.AdcBits := 12;
  Thermistor.AdcRange := 16384;
  Thermistor.VrefFilterIndex := 4;
  Thermistor.VssaFilterIndex := 5;
  Thermistor.ABS_ZERO := fdiv (of_Z (-27315)) (of_Z 100);
  Thermistor.BadErrorTemperature := of_Z 2000;
  Thermistor.MinimumConnectedTemperature := of_Z (-5);
  Thermistor.log := fun x =>
    if lt x (of_Z 1000000) then fdiv (of_Z 23) (of_Z 2) else of_Z 15;
  Thermistor.logf := fun _ => fdiv (of_Z 23) (of_Z 2);
  Thermistor.rintf := fun x => of_Z (trunc x);
  Thermistor.constrain := fun x lo hi =>
    if lt x lo then lo else if lt hi x then hi else x;
  Thermistor.GetPT100Temperature := fun _ => (of_Z 0, TemperatureSensor.success);
  Thermistor.ConfigurePort := fun _ p => Some (p, false);
  Thermistor.GetAveragingFilterIndex := fun p => p
|}.

Definition sensor0 : TemperatureSensor.TemperatureSensor :=
  TemperatureSensor.mkSensor 0 "Thermistor" (of_Z 0) 0
    TemperatureSensor.notReady TemperatureSensor.success.

(** A thermistor with R25 = 100k, beta = 4388, C = 7e-8 (as 7/10^8),
    series resistor 2200 ohms, on filter channel 0. *)
Definition thermistor0 : Thermistor.Thermistor :=
  Thermistor.CalcDerivedParameters
    (Thermistor.mkThermistor sensor0 0 0 (of_Z 100000) (of_Z 4388)
       (fdiv (of_Z 7) (of_Z 100000000)) (of_Z 2200) false zero zero 0 0).

(** A parser that carries the float parameters listed. *)
Definition parserOf (params : list (ascii * float)) : Thermistor.CanMessageGenericParser :=
  Thermistor.mkParser
    (fun c => option_map snd (find (fun p => Ascii.eqb (fst p) c) params))
    (fun _ => None).

(** Filters with [temp], [vref] and [vssa] as the averaged readings. *)
Definition filtersOf (temp vref vssa : Z) (ch : Z) : Thermistor.ThermistorAveragingFilter :=
  Thermistor.mkFilter true
    (16 * (if ch =? 4 then vref else if ch =? 5 then vssa else temp)) 64.

(** A board whose INT1 line is forced high; the FIFO holds one sample. *)
Definition stuckHigh : LIS3DH.Sys :=
  (lis3dh AccelerometerType.LIS3DH,
   world (mkMock true [(true, [1]); (true, [1; 2; 3; 4; 5; 6]); (true, [32])]
            true None)).

(** A board whose INT1 line is low and whose FIFO is empty. *)
Definition quiescent : LIS3DH.Sys :=
  (lis3dh AccelerometerType.LIS3DH,
   world (mkMock true [(true, [32]); (true, [])] false None)).

(** INT1 is high, the FIFO status reads 24 samples without overflow, and
    the bus then delivers, or fails to deliver, the 144 bytes. *)
Definition watermark (burst : bool * list Z) (ty : AccelerometerType.t) : LIS3DH.Sys :=
  (lis3dh ty, world (mkMock true [(true, [24]); burst] true None)).

End Mock.

(* ================================================================= *)
(** * LIS3DH: presence check, configuration and status *)

Module LIS3DHSetup.
Import Machine Exec Platform SharedI2C LIS3DH.
Local Open Scope exec_scope.

(** constexpr uint16_t LisAddresses[], lines 207-213 of the listing. *)
Definition LisAddresses : list Z := [24; 25; 30; 29].

(** WhoAmIValue_3DH, WhoAmIValue_3DSH, WhoAmIValue_2DW, lines 217-219. *)
Definition WhoAmIValue_3DH : Z := 51.
Definition WhoAmIValue_3DSH : Z := 63.
Definition WhoAmIValue_2DW : Z := 68.

(** The further enumerators of [LisRegister] that CheckPresent, ReadStatus
    and Configure name; their values are in the absent LIS3DH.h. *)
Class LisSetupRegister : Type := {
  WhoAmI : Z;
  Status : Z;
  FifoControl : Z;
  CtrlReg6_3DSH : Z;
  CtrlReg2_2DW : Z
}.

Definition set_client (v : SharedI2CClient) (d : State) : State :=
  mkState v (accelerometerType d) (int1Pin d) (ctrlReg_0x20 d)
    (transferBuffer_reg d) (transferBuffer_data d) (taskWaiting d)
    (totalNumRead d) (firstInterruptTime d) (lastInterruptTime d)
    (interruptError d).

Definition set_accelerometerType (v : AccelerometerType.t) (d : State) : State :=
  mkState (client d) v (int1Pin d) (ctrlReg_0x20 d)
    (transferBuffer_reg d) (transferBuffer_data d) (taskWaiting d)
    (totalNumRead d) (firstInterruptTime d) (lastInterruptTime d)
    (interruptError d).

Definition set_ctrlReg_0x20 (v : Z) (d : State) : State :=
  mkState (client d) (accelerometerType d) (int1Pin d) v
    (transferBuffer_reg d) (transferBuffer_data d) (taskWaiting d)
    (totalNumRead d) (firstInterruptTime d) (lastInterruptTime d)
    (interruptError d).

(** The chip a WHO_AM_I value stands for, lines 258-272. *)
Definition identify (val : Z) : option AccelerometerType.t :=
  if val =? WhoAmIValue_3DH then Some AccelerometerType.LIS3DH
  else if val =? WhoAmIValue_3DSH then Some AccelerometerType.LIS3DSH
  else if val =? WhoAmIValue_2DW then Some AccelerometerType.LIS2DW
  else None.

(** What LIS3DH::Configure does to the rate and the resolution it was
    asked for on the LIS3DH, lines 342-385: the new resolution, the new
    rate and the value cached for control register 0x20. *)
Definition select3DH (samplingRate resolution : Z) : Z * Z * Z :=
  let '(resolution', lowPower) :=
    if 12 <=? resolution then (12, 0)
    else if resolution <? 10 then (8, Z.shiftl 1 3)
    else (10, 0) in
  let '(odr, samplingRate') :=
    if 1000 <=? samplingRate then
      if 10 <=? resolution' then (9, 1344)
      else if 5000 <=? samplingRate then (9, 5376)
      else (8, 1600)
    else (7, 400) in
  (samplingRate', resolution', uint8 (Z.lor lowPower (Z.shiftl odr 4))).

(** The value of [ctrlReg_0x23] on the LIS3DH, lines 344-349. *)
Definition ctrlReg_0x23 (resolution : Z) : Z :=
  if 12 <=? resolution then Z.lor (Z.shiftl 1 7) (Z.shiftl 1 3)
  else Z.shiftl 1 7.

(** The rate and the value cached for control register 0x20 on the
    LIS3DSH (lines 307-321, [mode = 0]) and the LIS2DW (lines 410-424,
    [mode = 1 << 2]). *)
Definition selectRate (mode samplingRate : Z) : Z * Z :=
  if (samplingRate =? 0) || (1200 <=? samplingRate) then (1600, Z.lor 144 mode)
  else if 600 <=? samplingRate then (800, Z.lor 128 mode)
  else (400, Z.lor 112 mode).

Section WithBoard.
Context {B : Board} {R : LisRegister} {S : LisSetupRegister}.

(** The assignments [transferBuffer.data[0] = .. ; ... ; data[5] = ..]. *)
Definition storeData (vals : list Z) : M Sys unit :=
  dat <- getD transferBuffer_data ;;
  if (List.length dat <? List.length vals)%nat then undefined
  else setD (set_data (map uint8 vals ++ skipn (List.length vals) dat)).

(** Lines 255-273: one read of WHO_AM_I at the current address. *)
Definition probe : M Sys bool :=
  r <- ReadRegister WhoAmI ;;
  match r with
  | Some val =>
      match identify val with
      | Some ty => setD (set_accelerometerType ty) ;;; ret true
      | None => ret false
      end
  | None => ret false
  end.

(** The loop of lines 251-275 over the I2C addresses. *)
Fixpoint probeAddresses (addrs : list Z) : M Sys bool :=
  match addrs with
  | [] => ret false
  | addr :: rest =>
      setD (set_client (mkClient addr)) ;;;
      found <- probe ;;
      if found then ret true else probeAddresses rest
  end.

(** LIS3DH::CheckPresent, lines 246-279. *)
Definition CheckPresent : M Sys bool :=
  setD (set_interruptError false) ;;;
  if ACCELEROMETER_USES_SPI then probe else probeAddresses LisAddresses.

(** LIS3DH::ReadStatus, lines 287-291. *)
Definition ReadStatus : M Sys Z :=
  r <- ReadRegister Status ;;
  match r with
  | Some val => ret val
  | None => ret 255
  end.

(** Lines 395-400, 330-336 and 433-439: the six control registers, then
    the FIFO mode. *)
Definition writeControlAndFifo (ok : bool) (controls : list Z) (fifo : Z)
    : M Sys bool :=
  ok1 <- (if ok then storeData controls ;;; WriteRegisters Ctrl_0x20 6
          else ret false) ;;
  if ok1 then WriteRegister FifoControl fifo else ret false.

(** LIS3DH::Configure, lines 295-443.  [samplingRate] and [resolution] are
    the values of the uint16_t and uint8_t variables passed by reference;
    the result is the returned flag with their values afterwards. *)
Definition Configure (samplingRate resolution : Z) : M Sys (bool * Z * Z) :=
  let samplingRate := uint16 samplingRate in
  let resolution := uint8 resolution in
  ty <- getD accelerometerType ;;
  match ty with
  | AccelerometerType.LIS3DSH =>
      ok <- WriteRegister CtrlReg6_3DSH (Z.shiftl 1 4) ;;
      let '(rate, ctrl) := selectRate 0 samplingRate in
      (if ok then setD (set_ctrlReg_0x20 ctrl) else ret tt) ;;;
      ok2 <- writeControlAndFifo ok
               [0; 0; 0;
                Z.lor (Z.lor (Z.shiftl 1 3) (Z.shiftl 1 6)) (Z.shiftl 1 5);
                0;
                Z.lor (Z.lor (Z.shiftl 1 2) (Z.shiftl 1 4)) (Z.shiftl 1 6)]
               (Z.lor (Z.shiftl 2 5) (FifoInterruptLevel - 1)) ;;
      ret (ok2, if ok then rate else samplingRate, 16)
  | AccelerometerType.LIS3DH =>
      let '(rate, resolution', ctrl) := select3DH samplingRate resolution in
      setD (set_ctrlReg_0x20 ctrl) ;;;
      ok2 <- writeControlAndFifo true
               [0; 0; Z.shiftl 1 2; ctrlReg_0x23 resolution; Z.shiftl 1 6; 0]
               (Z.lor (Z.shiftl 2 6) (FifoInterruptLevel - 1)) ;;
      ret (ok2, rate, resolution')
  | AccelerometerType.LIS2DW =>
      ok <- WriteRegister CtrlReg2_2DW (Z.shiftl 1 2) ;;
      let '(rate, ctrl) := selectRate (Z.shiftl 1 2) samplingRate in
      (if ok then setD (set_ctrlReg_0x20 ctrl) else ret tt) ;;;
      ok2 <- writeControlAndFifo ok
               [0; Z.lor (Z.shiftl 1 7) (Z.shiftl 1 2); 0; Z.shiftl 1 1; 0;
                Z.shiftl 1 2]
               (Z.lor (Z.shiftl 6 5) (FifoInterruptLevel - 1)) ;;
      ret (ok2, if ok then rate else samplingRate, 14)
  end.

(** ** Vocabulary for the properties of the driver *)

(** The driver with its transfer buffer blanked: everything a register
    access must leave alone. *)
Definition core (d : State) : State := set_data [] (set_reg 0 d).

(** A run relates the state before to the state after by [Rel]. *)
Definition preserves (Rel : Sys -> Sys -> Prop) {A : Type} (m : M Sys A) : Prop :=
  forall s a s', m s = Ok (a, s') -> Rel s s'.

Definition sameCore (s s' : Sys) : Prop := core (fst s') = core (fst s).

(** The driver without its buffer and without what the interrupt handler
    writes: the bound address, the chip, the pin, the cached control
    register, the sample count and the error flag. *)
Definition setup (d : State) : State :=
  set_taskWaiting None
    (set_firstInterruptTime 0 (set_lastInterruptTime 0 (core d))).

Definition sameSetup (s s' : Sys) : Prop := setup (fst s') = setup (fst s).

(** The same driver and platform with another chip recorded. *)
Definition withType (ty : AccelerometerType.t) (s : Sys) : Sys :=
  (set_accelerometerType ty (fst s), snd s).

(** What a Configure that returns true leaves as rate, resolution and
    cached control register 0x20, from the values asked for. *)
Definition negotiated (ty : AccelerometerType.t) (samplingRate resolution : Z)
    : Z * Z * Z :=
  match ty with
  | AccelerometerType.LIS3DH => select3DH samplingRate resolution
  | AccelerometerType.LIS3DSH =>
      (fst (selectRate 0 samplingRate), 16, snd (selectRate 0 samplingRate))
  | AccelerometerType.LIS2DW =>
      (fst (selectRate (Z.shiftl 1 2) samplingRate), 14,
       snd (selectRate (Z.shiftl 1 2) samplingRate))
  end.

(** The bus transfers among [evs]: bytes sent (register byte included) and
    success. *)
Definition transfers (evs : list Event) : list (Z * bool) :=
  flat_map (fun e => match busTransfer e with
                     | Some t => [t]
                     | None => []
                     end) evs.

(** The bus as a lock: [Some held] after the events, [None] when an event
    breaks the discipline.  The bus is asked for only when it is not held,
    transfers and releases happen only while it is held, and the task is
    suspended only while it is not held. *)
Fixpoint lockRun (held : bool) (evs : list Event) : option bool :=
  match evs with
  | [] => Some held
  | e :: rest =>
      match e with
      | MutexTake _ granted | SpiSelect _ granted =>
          if held then None else lockRun granted rest
      | MutexRelease | SpiDeselect =>
          if held then lockRun false rest else None
      | I2CTransfer _ _ _ _ _ _ | SpiTransceive _ _ _ =>
          if held then lockRun held rest else None
      | TaskTake _ => if held then None else lockRun held rest
      | _ => lockRun held rest
      end
  end.

(** The run starts and ends with the bus released and keeps the
    discipline in between. *)
Definition releasesBus (s s' : Sys) : Prop :=
  exists evs, trace (snd s') = trace (snd s) ++ evs /\
              lockRun false evs = Some false.

(** Whether a call on the platform succeeded. *)
Definition succeeded (e : Event) : bool :=
  match e with
  | MutexTake _ ok | SpiSelect _ ok | AttachInterrupt _ ok => ok
  | I2CTransfer _ _ _ _ _ ok | SpiTransceive _ _ ok => ok
  | _ => true
  end.

(** The rates and resolutions each chip is set to. *)
Definition supported (ty : AccelerometerType.t) (samplingRate resolution : Z)
    : Prop :=
  match ty with
  | AccelerometerType.LIS3DH =>
      (samplingRate = 400 /\ (resolution = 8 \/ resolution = 10 \/ resolution = 12)) \/
      (samplingRate = 1344 /\ (resolution = 10 \/ resolution = 12)) \/
      ((samplingRate = 1600 \/ samplingRate = 5376) /\ resolution = 8)
  | AccelerometerType.LIS3DSH =>
      (samplingRate = 400 \/ samplingRate = 800 \/ samplingRate = 1600) /\
      resolution = 16
  | AccelerometerType.LIS2DW =>
      (samplingRate = 400 \/ samplingRate = 800 \/ samplingRate = 1600) /\
      resolution = 14
  end.

(** Between [s] and [s'] every call on the platform succeeded and the bus
    transfers were [ts]. *)
Definition madeTransfers (ts : list (Z * bool)) (s s' : Sys) : Prop :=
  exists evs, trace (snd s') = trace (snd s) ++ evs /\
              forallb succeeded evs = true /\
              transfers evs = ts.

(** The driver answers for a chip: the WHO_AM_I byte at the start of its
    data buffer is the one of the chip it has recorded. *)
Definition identified (d : State) : Prop :=
  exists val rest,
    transferBuffer_data d = val :: rest /\
    identify val = Some (accelerometerType d).

End WithBoard.

End LIS3DHSetup.

Module MockSetup.
Import Machine Exec Platform Mock.

(** The register addresses of the data sheets. *)
#[export] Instance setupRegisters : LIS3DHSetup.LisSetupRegister := {|
  LIS3DHSetup.WhoAmI := 15;
  LIS3DHSetup.Status := 39;
  LIS3DHSetup.FifoControl := 46;
  LIS3DHSetup.CtrlReg6_3DSH := 37;
  LIS3DHSetup.CtrlReg2_2DW := 33
|}.

(** A board whose bus answers the transfers with [answers], INT1 low. *)
Definition scripted (ty : AccelerometerType.t) (answers : list (bool * list Z))
    : LIS3DH.Sys :=
  (lis3dh ty, world (mkMock true answers false None)).

End MockSetup.

(* ================================================================= *)
(** * Vocabulary for the further properties of Thermistor *)

Module ThermistorTerms.
Import Machine Float TemperatureSensor Thermistor.

Section WithTarget.
Context {T : Target}.

(** One of 'B', 'C', 'T' is present (lines 45, 48 and 49). *)
Definition thermistorParameters (parser : CanMessageGenericParser) : bool :=
  present (GetFloatParam parser "B") || present (GetFloatParam parser "C") ||
  present (GetFloatParam parser "T").

(** One of 'L', 'H' is present (lines 58 and 59). *)
Definition offsetParameters (parser : CanMessageGenericParser) : bool :=
  present (GetIntValue parser "L") || present (GetIntValue parser "H").

(** A parameter that Configure reads for this sensor in this build is
    present. *)
Definition anyParameter (parser : CanMessageGenericParser) (th : Thermistor)
    : bool :=
  present (GetFloatParam parser "R") ||
  (negb (isPT1000 th) && thermistorParameters parser) ||
  (negb HAS_VREF_MONITOR && offsetParameters parser).

(** [shA] and [shB] are the values CalcDerivedParameters computes from
    R25, beta and C. *)
Definition derivedConsistent (th : Thermistor) : Prop :=
  shA (CalcDerivedParameters th) = shA th /\
  shB (CalcDerivedParameters th) = shB th.


End WithTarget.

End ThermistorTerms.

(* ================================================================= *)
(** * Properties of TemperatureSensor *)

Section TemperatureSensorFacts.
Import Machine Float TemperatureSensor.

Lemma uint32_range (z : Z) : 0 <= uint32 z < 2 ^ 32.
Proof. unfold uint32, wrap. apply Z.mod_pos_bound. lia. Qed.

Lemma uint32_small (z : Z) : 0 <= z < 2 ^ 32 -> uint32 z = z.
Proof. intros Hz. unfold uint32, wrap. apply Z.mod_small. exact Hz. Qed.

(** For times [whenRead <= now] less than one period of the counter apart,
    the difference of their millis() values is the time that has passed. *)
Lemma elapsed_no_wrap (now whenRead : Z) :
  0 <= now - whenRead < 2 ^ 32 ->
  elapsed (uint32 now) (uint32 whenRead) = now - whenRead.
Proof.
  intros Hage. unfold elapsed, uint32, wrap.
  rewrite <- Zminus_mod. apply Z.mod_small. exact Hage.
Qed.


Lemma applyCall_lastResult (now : Z) (c : SetResultCall) (s : TemperatureSensor) :
  lastResult (applyCall now c s) = callCode c.
Proof. destruct c; reflexivity. Qed.

Lemma applyCall_lastRealError (now : Z) (c : SetResultCall) (s : TemperatureSensor) :
  lastRealError (applyCall now c s) =
  if is_real_error (callCode c) then callCode c else lastRealError s.
Proof. destruct c; reflexivity. Qed.




(** C1. Every call on SetResult records its code as the last result; a
    call with [success] or [notReady] leaves the sticky error returned by
    GetLastError as it was, and a call with any other code makes that code
    the sticky error. *)
Theorem SetResult_sticky_error (now : Z) (c : SetResultCall) (s : TemperatureSensor) :
  lastResult (applyCall now c s) = callCode c /\
  (callCode c = success \/ callCode c = notReady ->
   GetLastError (applyCall now c s) = GetLastError s) /\
  (callCode c <> success -> callCode c <> notReady ->
   GetLastError (applyCall now c s) = callCode c).
Proof.
  unfold GetLastError. rewrite applyCall_lastResult, applyCall_lastRealError.
  split; [reflexivity | split].
  - intros [Hc | Hc]; rewrite Hc; reflexivity.
  - intros Hs Hn. destruct (callCode c); try reflexivity; congruence.
Qed.

Lemma SetResult_sticky_error_witness :
  GetLastError (applyCall 10 (CodeOnly notReady)
                  (applyCall 5 (WithValue zero openCircuit) Mock.sensor0))
  = openCircuit.
Proof.
  destruct (SetResult_sticky_error 10 (CodeOnly notReady)
              (applyCall 5 (WithValue zero openCircuit) Mock.sensor0))
    as [_ [Hkeep _]].
  rewrite Hkeep by (right; reflexivity).
  destruct (SetResult_sticky_error 5 (WithValue zero openCircuit) Mock.sensor0)
    as [_ [_ Hset]].
  apply Hset; discriminate.
Defined.



End TemperatureSensorFacts.

(* ================================================================= *)
(** * Properties of ScanningSensorHandler *)

Section ScanningSensorFacts.
Import Machine Exec Platform ScanningSensorHandler.
Context {B : Board}.

Lemma top_bit_set (v i : Z) :
  0 <= v -> 28 <= i -> Z.testbit v i = true -> 2 ^ 28 <= v.
Proof.
  intros Hv Hi Hbit.
  destruct (Z_lt_le_dec v (2 ^ 28)) as [Hsmall | Hbig]; [exfalso | exact Hbig].
  apply Z.testbit_true in Hbit; [| lia].
  assert (Hle : 2 ^ 28 <= 2 ^ i) by (apply Z.pow_le_mono_r; lia).
  rewrite Z.div_small in Hbit by lia.
  discriminate Hbit.
Qed.

Lemma shiftr28_zero (v : Z) : 0 <= v -> (Z.shiftr v 28 = 0 <-> v < 2 ^ 28).
Proof.
  intros Hv. rewrite Z.shiftr_div_pow2 by lia. split; intros H.
  - apply Z.div_small_iff in H; lia.
  - apply Z.div_small. lia.
Qed.

(** C10. GetReading always returns, and returns 0 when there is no sensor,
    when the read of the channel result fails, and when the result has one
    of its top four bits set; a nonzero return is the conversion result
    itself and lies below 2^28.  A conversion result of 0 is returned as 0
    as well, so that 0 stands for a reading and for every failure alike. *)
Theorem GetReading_zero_on_failure (sensor : option LDC1612) (w : World) :
  exists (r : Z) (w' : World),
    GetReading sensor w = Ok (r, w') /\
    (sensor = None -> r = 0) /\
    (fst (LDC1612_GetChannelResult 0 (hw w)) = None -> r = 0) /\
    (forall val i, fst (LDC1612_GetChannelResult 0 (hw w)) = Some val ->
                   28 <= i < 32 -> Z.testbit (uint32 val) i = true -> r = 0) /\
    (forall val, fst (LDC1612_GetChannelResult 0 (hw w)) = Some val ->
                 uint32 val = 0 -> r = 0) /\
    (r <> 0 ->
     0 < r < 2 ^ 28 /\
     sensor <> None /\
     exists val, fst (LDC1612_GetChannelResult 0 (hw w)) = Some val /\
                 r = uint32 val).
Proof.
  destruct sensor as [s |].
  - unfold GetReading, GetChannelResult, bind, ret.
    destruct (LDC1612_GetChannelResult 0 (hw w)) as [[val |] h] eqn:Hread;
      cbn [option_map fst].
    + pose proof (uint32_range val) as Hrange.
      destruct (Z.shiftr (uint32 val) 28 =? 0) eqn:Htop.
      * apply Z.eqb_eq in Htop. apply shiftr28_zero in Htop; [| lia].
        eexists; eexists; split; [reflexivity |].
        split; [discriminate |]. split; [discriminate |].
        split; [intros v i Hv Hi Hbit; inversion Hv; subst;
                apply top_bit_set in Hbit; lia |].
        split; [intros v Hv Hz; inversion Hv; subst; exact Hz |].
        intros Hnz. split; [lia |]. split; [discriminate |].
        exists val. split; reflexivity.
      * eexists; eexists; split; [reflexivity |].
        split; [reflexivity |]. split; [reflexivity |].
        split; [reflexivity |]. split; [reflexivity |].
        intros Hnz. contradiction Hnz. reflexivity.
    + eexists; eexists; split; [reflexivity |].
      split; [reflexivity |]. split; [reflexivity |].
      split; [reflexivity |]. split; [reflexivity |].
      intros Hnz. contradiction Hnz. reflexivity.
  - eexists; eexists; split; [reflexivity |].
    split; [reflexivity |]. split; [reflexivity |].
    split; [reflexivity |]. split; [reflexivity |].
    intros Hnz. contradiction Hnz. reflexivity.
Qed.

End ScanningSensorFacts.

Section ScanningSensorWitnesses.
Import Machine Exec Platform ScanningSensorHandler.

(** A conversion result with error bit 28 set is returned as 0. *)
Lemma GetReading_zero_on_failure_witness :
  exists w',
    GetReading (Some (mkLDC1612 42))
      (Mock.world (Mock.mkMock true [] false (Some (2 ^ 28 + 5))))
    = Ok (0, w').
Proof.
  destruct (GetReading_zero_on_failure (Some (mkLDC1612 42))
              (Mock.world (Mock.mkMock true [] false (Some (2 ^ 28 + 5)))))
    as [r [w' [Hrun [_ [_ [Hbits _]]]]]].
  exists w'. rewrite Hrun.
  rewrite (Hbits (2 ^ 28 + 5) 28); [reflexivity | reflexivity | lia |].
  vm_compute. reflexivity.
Defined.

End ScanningSensorWitnesses.

(* ================================================================= *)
(** * Properties of SharedI2CClient *)

Section SharedI2CFacts.
Import Machine Exec Platform SharedI2C.
Context {B : Board}.

(** A transfer leaves the buffer with the size it had. *)
Lemma overwrite_length (old new : list Z) :
  List.length (overwrite old new) = List.length old.
Proof.
  unfold overwrite. apply firstn_length_le.
  rewrite length_app, length_map, length_skipn. lia.
Qed.

Lemma trace_step (h : HW) (e : Event) (w : World) :
  trace (step h e w) = trace w ++ [e].
Proof. reflexivity. Qed.

Lemma hw_step (h : HW) (e : Event) (w : World) : hw (step h e w) = h.
Proof. reflexivity. Qed.

Lemma Transfer_busy (c : SharedI2CClient) (buffer : list Z)
    (numToWrite numToRead timeout : Z) (w : World) :
  fst (Mutex_Take timeout (hw w)) = false ->
  Transfer c buffer numToWrite numToRead timeout w
  = Ok ((false, buffer),
        mkWorld (afterTake timeout w) (trace w ++ [MutexTake timeout false])).
Proof.
  intros Htake. unfold Transfer, bind, Take, afterTake.
  destruct (Mutex_Take timeout (hw w)) as [took h1]. cbn [fst snd] in *.
  subst took. reflexivity.
Qed.

Lemma Transfer_taken (c : SharedI2CClient) (first : Z) (rest : list Z)
    (numToWrite numToRead timeout : Z) (w : World) :
  fst (Mutex_Take timeout (hw w)) = true ->
  Transfer c (first :: rest) numToWrite numToRead timeout w
  = let r := masterRun c first rest numToWrite numToRead timeout w in
    Ok ((fst (fst r), first :: overwrite rest (snd (fst r))),
        mkWorld (Mutex_Release (snd r))
          (trace w ++ [MutexTake timeout true;
                       I2CTransfer (address c) first rest numToWrite numToRead
                         (fst (fst r));
                       MutexRelease])).
Proof.
  intros Htake.
  unfold Transfer, bind, Take, MasterTransfer, Release, ret, masterRun, afterTake.
  destruct (Mutex_Take timeout (hw w)) as [took h1]. cbn [fst snd] in *.
  subst took. cbn [negb hw step].
  destruct (I2C_Transfer (address c) first rest numToWrite numToRead h1)
    as [[okT buffer'] h2].
  cbn [fst snd]. unfold step. cbn [hw trace].
  rewrite <- !app_assoc. reflexivity.
Qed.

Lemma Transfer_no_buffer (c : SharedI2CClient)
    (numToWrite numToRead timeout : Z) (w : World) :
  fst (Mutex_Take timeout (hw w)) = true ->
  Transfer c [] numToWrite numToRead timeout w = Invalid.
Proof.
  intros Htake. unfold Transfer, bind, Take.
  destruct (Mutex_Take timeout (hw w)) as [took h1]. cbn [fst] in Htake.
  subst took. reflexivity.
Qed.

(** C3. When the mutex is not obtained within the timeout, Transfer returns
    false and the only call it made is the failed Take: no bus transfer,
    and the buffer is as it was.  When the mutex is obtained (and the buffer
    has its first byte), it makes exactly the calls Take, one
    SharedI2CMaster::Transfer with the client's address, Release, in this
    order and whatever the transfer returned, and returns what the transfer
    returned. *)
Theorem Transfer_takes_and_releases (c : SharedI2CClient) (buffer : list Z)
    (numToWrite numToRead timeout : Z) (w : World) :
  (fst (Mutex_Take timeout (hw w)) = false ->
   exists w',
     Transfer c buffer numToWrite numToRead timeout w
     = Ok ((false, buffer), w') /\
     trace w' = trace w ++ [MutexTake timeout false]) /\
  (fst (Mutex_Take timeout (hw w)) = true ->
   forall first rest, buffer = first :: rest ->
   exists ok rest' w',
     Transfer c buffer numToWrite numToRead timeout w
     = Ok ((ok, first :: rest'), w') /\
     ok = fst (fst (masterRun c first rest numToWrite numToRead timeout w)) /\
     trace w' = trace w ++ [MutexTake timeout true;
                            I2CTransfer (address c) first rest
                              numToWrite numToRead ok;
                            MutexRelease]).
Proof.
  split; intros Htake.
  - eexists. rewrite Transfer_busy by exact Htake. split; reflexivity.
  - intros first rest ->. do 3 eexists. rewrite Transfer_taken by exact Htake.
    cbv zeta. split; [reflexivity | split; reflexivity].
Qed.


(** C9. Once the bus is acquired, Transfer reads [buffer[0]] whatever
    numToWrite is: on a buffer without a first byte the read is outside the
    object; otherwise the byte is the firstByte argument of the master's
    transfer, the master works on the memory from [buffer + 1] on, and
    afterwards the buffer is the untouched [buffer[0]] followed by what the
    master left from [buffer[1]] on. *)
Theorem Transfer_first_byte (c : SharedI2CClient) (buffer : list Z)
    (numToWrite numToRead timeout : Z) (w : World) :
  fst (Mutex_Take timeout (hw w)) = true ->
  (buffer = [] ->
   Transfer c buffer numToWrite numToRead timeout w = Invalid) /\
  (forall first rest, buffer = first :: rest ->
   exists ok w',
     Transfer c buffer numToWrite numToRead timeout w
     = Ok ((ok, first :: overwrite rest
                  (snd (fst (masterRun c first rest numToWrite numToRead
                               timeout w)))), w') /\
     trace w' = trace w ++ [MutexTake timeout true;
                            I2CTransfer (address c) first rest
                              numToWrite numToRead ok;
                            MutexRelease]).
Proof.
  intros Htake. split.
  - intros ->. apply Transfer_no_buffer. exact Htake.
  - intros first rest ->. do 2 eexists.
    rewrite Transfer_taken by exact Htake. cbv zeta. split; reflexivity.
Qed.

End SharedI2CFacts.

Section SharedI2CWitnesses.
Import Exec Platform SharedI2C.

Lemma Transfer_takes_and_releases_witness :
  (exists w',
     Transfer (mkClient 24) [47; 0] 1 1 25
       (Mock.world (Mock.mkMock false [(true, [24])] false None))
     = Ok ((false, [47; 0]), w') /\
     trace w' = [MutexTake 25 false]) /\
  (exists ok rest' w',
     Transfer (mkClient 24) [47; 0] 1 1 25
       (Mock.world (Mock.mkMock true [(false, [])] false None))
     = Ok ((ok, 47 :: rest'), w') /\
     ok = false /\
     trace w' = [MutexTake 25 true; I2CTransfer 24 47 [0] 1 1 ok; MutexRelease]).
Proof.
  split.
  - apply (proj1 (Transfer_takes_and_releases (mkClient 24) [47; 0] 1 1 25
                    (Mock.world (Mock.mkMock false [(true, [24])] false None)))).
    reflexivity.
  - apply (proj2 (Transfer_takes_and_releases (mkClient 24) [47; 0] 1 1 25
                    (Mock.world (Mock.mkMock true [(false, [])] false None)))
             eq_refl 47 [0]).
    reflexivity.
Defined.

Lemma Transfer_first_byte_witness :
  Transfer (mkClient 24) [] 0 0 25
    (Mock.world (Mock.mkMock true [(true, [])] false None)) = Invalid /\
  exists ok w',
    Transfer (mkClient 24) [40; 1; 2; 3] 0 2 25
      (Mock.world (Mock.mkMock true [(true, [9; 8])] false None))
    = Ok ((ok, [40; 9; 8; 3]), w') /\
    trace w' = [MutexTake 25 true; I2CTransfer 24 40 [1; 2; 3] 0 2 ok;
                MutexRelease].
Proof.
  split.
  - apply (proj1 (Transfer_first_byte (mkClient 24) [] 0 0 25
                    (Mock.world (Mock.mkMock true [(true, [])] false None))
                    eq_refl)).
    reflexivity.
  - apply (proj2 (Transfer_first_byte (mkClient 24) [40; 1; 2; 3] 0 2 25
                    (Mock.world (Mock.mkMock true [(true, [9; 8])] false None))
                    eq_refl) 40 [1; 2; 3]).
    reflexivity.
Defined.

End SharedI2CWitnesses.

(* ================================================================= *)
(** * Properties of the LIS3DH driver *)

Section LIS3DHFacts.
Import Machine Exec Platform SharedI2C LIS3DH.
Context {B : Board} {R : LisRegister}.

(** Unfold the plumbing of the driver's monad and of the SPI wrappers. *)
Ltac run_driver :=
  cbv [bind getD setD io onSnd gets modify ret undefined diverge
       Select TransceivePacket Deselect
       digitalRead pinMode delayMicroseconds attachInterrupt TaskBase_Take
       step transferBuffer
       set_reg set_data set_taskWaiting set_totalNumRead set_interruptError];
  cbn [fst snd hw trace client accelerometerType int1Pin ctrlReg_0x20
       transferBuffer_reg transferBuffer_data taskWaiting totalNumRead
       firstInterruptTime lastInterruptTime interruptError].


Lemma WriteRegisters_reserved (reg n : Z) (s : Sys) :
  uint8 reg < 30 -> WriteRegisters reg n s = Ok (false, s).
Proof.
  intros Hlow. unfold WriteRegisters.
  apply Z.ltb_lt in Hlow. rewrite Hlow. reflexivity.
Qed.

Lemma WriteRegisters_i2c (reg n : Z) (d : State) (w : World) :
  30 <= uint8 reg -> ACCELEROMETER_USES_SPI = false ->
  WriteRegisters reg n (d, w) =
  let regAddr := if plainAddress (accelerometerType d) n then uint8 reg
                 else uint8 (Z.lor (uint8 reg) 128) in
  match Transfer (client d) (regAddr :: transferBuffer_data d) (1 + n) 0
          Lis3dI2CTimeout w with
  | Ok (r, w') => Ok (fst r, (set_transferBuffer (snd r) (set_reg regAddr d), w'))
  | OutOfFuel => OutOfFuel
  | Invalid => Invalid
  end.
Proof.
  intros Hreg Hbuild. unfold WriteRegisters.
  apply Z.ltb_ge in Hreg. rewrite Hreg, Hbuild.
  run_driver.
  destruct (Transfer _ _ _ _ _ w) as [[r w'] | |]; reflexivity.
Qed.

Lemma WriteRegisters_spi (reg n : Z) (d : State) (w : World) :
  30 <= uint8 reg -> ACCELEROMETER_USES_SPI = true ->
  WriteRegisters reg n (d, w) =
  let regByte := if plainAddress (accelerometerType d) n then uint8 reg
                 else uint8 (Z.lor (uint8 reg) 64) in
  let sel := Spi_Select Lis3dSpiTimeout (hw w) in
  if fst sel then
    let r := Spi_TransceivePacket (regByte :: transferBuffer_data d) (1 + n)
               (snd sel) in
    Ok (fst (fst r),
        (set_transferBuffer
           (overwrite (regByte :: transferBuffer_data d) (snd (fst r)))
           (set_reg regByte d),
         mkWorld (Spi_Deselect (snd r))
           (trace w ++ [SpiSelect Lis3dSpiTimeout true;
                        SpiTransceive (regByte :: transferBuffer_data d) (1 + n)
                          (fst (fst r));
                        SpiDeselect])))
  else Ok (false, (d, mkWorld (snd sel)
                        (trace w ++ [SpiSelect Lis3dSpiTimeout false]))).
Proof.
  intros Hreg Hbuild. unfold WriteRegisters.
  apply Z.ltb_ge in Hreg. rewrite Hreg, Hbuild.
  run_driver.
  destruct (Spi_Select Lis3dSpiTimeout (hw w)) as [granted h1].
  cbn [fst snd]. destruct granted; cbn [negb fst snd hw trace]; [| reflexivity].
  destruct (Spi_TransceivePacket _ _ h1) as [[okT buffer'] h2].
  cbn [fst snd hw trace].
  rewrite <- !app_assoc. reflexivity.
Qed.

Lemma ReadRegisters_i2c (reg n : Z) (d : State) (w : World) :
  ACCELEROMETER_USES_SPI = false ->
  ReadRegisters reg n (d, w) =
  let regAddr := if plainAddress (accelerometerType d) n then uint8 reg
                 else uint8 (Z.lor (uint8 reg) 128) in
  match Transfer (client d) (regAddr :: transferBuffer_data d) 1 n
          Lis3dI2CTimeout w with
  | Ok (r, w') => Ok (fst r, (set_transferBuffer (snd r) (set_reg regAddr d), w'))
  | OutOfFuel => OutOfFuel
  | Invalid => Invalid
  end.
Proof.
  intros Hbuild. unfold ReadRegisters. rewrite Hbuild. run_driver.
  destruct (Transfer _ _ _ _ _ w) as [[r w'] | |]; reflexivity.
Qed.

Lemma ReadRegisters_spi (reg n : Z) (d : State) (w : World) :
  ACCELEROMETER_USES_SPI = true ->
  ReadRegisters reg n (d, w) =
  let regByte := uint8 (Z.lor (uint8 reg)
                          (if plainAddress (accelerometerType d) n
                           then 128 else 192)) in
  let sel := Spi_Select Lis3dSpiTimeout (hw w) in
  if fst sel then
    let r := Spi_TransceivePacket (regByte :: transferBuffer_data d) (1 + n)
               (delayMicroseconds_hw 1 (snd sel)) in
    Ok (fst (fst r),
        (set_transferBuffer
           (overwrite (regByte :: transferBuffer_data d) (snd (fst r)))
           (set_reg regByte d),
         mkWorld (Spi_Deselect (snd r))
           (trace w ++ [SpiSelect Lis3dSpiTimeout true;
                        DelayMicroseconds 1;
                        SpiTransceive (regByte :: transferBuffer_data d) (1 + n)
                          (fst (fst r));
                        SpiDeselect])))
  else Ok (false, (d, mkWorld (snd sel)
                        (trace w ++ [SpiSelect Lis3dSpiTimeout false]))).
Proof.
  intros Hbuild. unfold ReadRegisters. rewrite Hbuild. run_driver.
  destruct (Spi_Select Lis3dSpiTimeout (hw w)) as [granted h1].
  cbn [fst snd]. destruct granted; cbn [negb fst snd hw trace]; [| reflexivity].
  destruct (Spi_TransceivePacket _ _ _) as [[okT buffer'] h2].
  cbn [fst snd hw trace].
  rewrite <- !app_assoc. reflexivity.
Qed.










Lemma armCollection_run (value : Z) (d1 : State) (w1 : World) :
  armCollection value (d1, w1) =
  if fst (int1Level d1 w1) then Ok (false, afterCheck d1 w1)
  else enableAndAttach value (int1Pin d1) (afterCheck d1 w1).
Proof.
  unfold armCollection, enableAndAttach, afterCheck, int1Level. run_driver.
  destruct (digitalRead_hw _ _) as [level h]. cbn [fst snd].
  rewrite <- !app_assoc. cbn [app].
  destruct level; reflexivity.
Qed.

Lemma StartCollecting_run (fuel : nat) (axes : Z) (d : State) (w : World) :
  StartCollecting fuel axes (d, w) =
  match clearFifo (fifoNotEmpty (accelerometerType d)) fuel (d, w) with
  | Ok (true, s1) =>
      armCollection (ctrlRegValue (accelerometerType d) (ctrlReg_0x20 d) axes) s1
  | Ok (false, s1) => Ok (false, s1)
  | OutOfFuel => OutOfFuel
  | Invalid => Invalid
  end.
Proof.
  unfold StartCollecting. run_driver.
  destruct (clearFifo _ fuel (d, w)) as [[[|] s1] | |]; reflexivity.
Qed.





Lemma Ok_inv {A : Type} (x y : A) : Ok x = Ok y -> x = y.
Proof. intros H. injection H. auto. Qed.





(** C8. A write to a register below 0x1E returns false and makes no call on
    the platform at all, for WriteRegisters and for WriteRegister (which
    has stored the value in the driver's own buffer only).  A write to a
    register at 0x1E or above passes the guard: the driver asks for the
    bus, and, when it gets it, makes one transfer of the register byte and
    the [n] data bytes and returns what the transfer returned. *)
Theorem WriteRegisters_guard (reg n val : Z) (d : State) (w : World) :
  (uint8 reg < 30 ->
   WriteRegisters reg n (d, w) = Ok (false, (d, w)) /\
   forall v rest, transferBuffer_data d = v :: rest ->
     WriteRegister reg val (d, w)
     = Ok (false, (set_data (uint8 val :: rest) d, w))) /\
  (30 <= uint8 reg ->
   exists ok d' w' e evs,
     WriteRegisters reg n (d, w) = Ok (ok, (d', w')) /\
     trace w' = trace w ++ e :: evs /\
     ((busRequest e = Some false /\ evs = [] /\ ok = false) \/
      (busRequest e = Some true /\
       exists t release, evs = [t; release] /\ busTransfer t = Some (1 + n, ok)))).
Proof.
  split.
  - intros Hlow. split.
    + apply WriteRegisters_reserved. exact Hlow.
    + intros v rest Hdata. unfold WriteRegister, bind, getD, gets, setD, modify.
      cbn [fst snd]. rewrite Hdata.
      apply WriteRegisters_reserved. exact Hlow.
  - intros Hreg. destruct ACCELEROMETER_USES_SPI eqn:Hbuild.
    + rewrite WriteRegisters_spi by assumption. cbv zeta.
      destruct (Spi_Select Lis3dSpiTimeout (hw w)) as [granted h1].
      cbn [fst snd]. destruct granted.
      * do 5 eexists. split; [reflexivity |]. cbn [trace].
        split; [reflexivity |]. right. split; [reflexivity |].
        do 2 eexists. split; reflexivity.
      * do 5 eexists. split; [reflexivity |]. cbn [trace].
        split; [reflexivity |]. left. repeat split.
    + rewrite WriteRegisters_i2c by assumption. cbv zeta.
      destruct (fst (Mutex_Take Lis3dI2CTimeout (hw w))) eqn:Htake.
      * rewrite Transfer_taken by exact Htake. cbv zeta.
        do 5 eexists. split; [reflexivity |]. cbn [trace].
        split; [reflexivity |]. right. split; [reflexivity |].
        do 2 eexists. split; reflexivity.
      * rewrite Transfer_busy by exact Htake.
        do 5 eexists. split; [reflexivity |]. cbn [trace].
        split; [reflexivity |]. left. repeat split.
Qed.

End LIS3DHFacts.

Section LIS3DHWitnesses.
Import Machine Exec Platform SharedI2C LIS3DH Mock.




Lemma WriteRegisters_guard_witness :
  WriteRegisters 15 1 stuckHigh = Ok (false, stuckHigh) /\
  exists written d' w' e evs,
    WriteRegisters 32 1 stuckHigh = Ok (written, (d', w')) /\
    trace w' = (trace (snd stuckHigh) ++ e :: evs)%list /\
    ((busRequest e = Some false /\ evs = [] /\ written = false) \/
     (busRequest e = Some true /\
      exists t release, evs = [t; release] /\ busTransfer t = Some (1 + 1, written))).
Proof.
  split.
  - apply (proj1 (WriteRegisters_guard 15 1 0 (fst stuckHigh) (snd stuckHigh))).
    vm_compute. reflexivity.
  - apply (proj2 (WriteRegisters_guard 32 1 0 (fst stuckHigh) (snd stuckHigh))).
    vm_compute. discriminate.
Defined.

End LIS3DHWitnesses.

(* ================================================================= *)
(** * Properties of the conversion from integers to float *)

Section FloatFacts.
Import Float.

Lemma digits2_pos_iter (p d : positive) :
  digits2_pos (Pos.iter xO p d) = (digits2_pos p + d)%positive.
Proof.
  induction d as [| d IH] using Pos.peano_ind.
  - cbn. lia.
  - rewrite Pos.iter_succ. cbn [digits2_pos]. rewrite IH. lia.
Qed.

Lemma digits2_pos_lower (p : positive) :
  2 ^ (Z.pos (digits2_pos p) - 1) <= Z.pos p.
Proof.
  induction p as [p IH | p IH |]; cbn [digits2_pos].
  - rewrite Pos2Z.inj_succ.
    replace (Z.succ (Z.pos (digits2_pos p)) - 1)
      with (Z.succ (Z.pos (digits2_pos p) - 1)) by lia.
    rewrite Z.pow_succ_r by lia. lia.
  - rewrite Pos2Z.inj_succ.
    replace (Z.succ (Z.pos (digits2_pos p)) - 1)
      with (Z.succ (Z.pos (digits2_pos p) - 1)) by lia.
    rewrite Z.pow_succ_r by lia. lia.
  - cbn. lia.
Qed.

Lemma digits2_pos_small (p : positive) :
  Z.pos p < 2 ^ 24 -> Z.pos (digits2_pos p) <= 24.
Proof.
  intros Hp. pose proof (digits2_pos_lower p) as Hlow.
  destruct (Z_le_gt_dec (Z.pos (digits2_pos p)) 24) as [H | H];
    [exact H | exfalso].
  assert (2 ^ 24 <= 2 ^ (Z.pos (digits2_pos p) - 1))
    by (apply Z.pow_le_mono_r; lia).
  lia.
Qed.

(** An integer of fewer than 25 bits is a binary32 number: rounding keeps
    its sign and does not reach zero. *)
Lemma binary_round_small (s : bool) (p : positive) :
  Z.pos p < 2 ^ 24 ->
  exists m e, binary_round prec32 emax32 s p 0 = S754_finite s m e.
Proof.
  intros Hp. apply digits2_pos_small in Hp.
  unfold binary_round, prec32, emax32.
  assert (Hfexp : fexp 24 128 (Z.pos (digits2_pos p) + 0)
                  = Z.pos (digits2_pos p) - 24).
  { unfold fexp, emin. lia. }
  rewrite Hfexp.
  assert (Halign : exists mz,
            shl_align p 0 (Z.pos (digits2_pos p) - 24)
            = (mz, Z.pos (digits2_pos p) - 24) /\
            digits2_pos mz = 24%positive).
  { unfold shl_align. rewrite Z.sub_0_r.
    destruct (Z.pos (digits2_pos p) - 24) as [| q | q] eqn:Hd.
    - exists p. split; [reflexivity | lia].
    - lia.
    - exists (Pos.iter xO p q). split; [reflexivity |].
      rewrite digits2_pos_iter. lia. }
  destruct Halign as [mz [-> Hdig]].
  unfold binary_round_aux, shr_fexp. cbn [Zdigits2]. rewrite Hdig.
  assert (Hf2 : fexp 24 128 (24 + (Z.pos (digits2_pos p) - 24))
                - (Z.pos (digits2_pos p) - 24) = 0).
  { unfold fexp, emin. lia. }
  rewrite Hf2.
  cbn [shr shr_record_of_loc shr_m loc_of_shr_record round_nearest_even Zdigits2].
  rewrite Hdig, Hf2. cbn [shr shr_m shr_record_of_loc].
  assert (Hle : (Z.pos (digits2_pos p) - 24 <=? 128 - 24) = true)
    by (apply Z.leb_le; lia).
  rewrite Hle. eauto.
Qed.

(** [(float)z <= 0.0] holds exactly when [z <= 0], for [z] within 24 bits. *)
Lemma of_Z_nonpositive (z : Z) :
  - 2 ^ 24 < z < 2 ^ 24 -> (le (of_Z z) zero = true <-> z <= 0).
Proof.
  intros Hz. unfold of_Z, binary_normalize.
  destruct z as [| p | p].
  - split; [lia | reflexivity].
  - destruct (binary_round_small false p) as [m [e ->]]; [lia |].
    split; [discriminate | lia].
  - destruct (binary_round_small true p) as [m [e ->]]; [lia |].
    split; [lia | reflexivity].
Qed.

End FloatFacts.

(* ================================================================= *)
(** * Properties of Thermistor *)

Section ThermistorFacts.
Import Machine Float TemperatureSensor Thermistor.
Context {T : Target}.

Lemma shC_CalcDerivedParameters (th : Thermistor) :
  shC (CalcDerivedParameters th) = shC th.
Proof. reflexivity. Qed.

Lemma shC_configureOffsets (parser : CanMessageGenericParser) (seen : bool)
    (th : Thermistor) :
  shC (snd (configureOffsets parser seen th)) = shC th.
Proof.
  unfold configureOffsets.
  destruct (getInt parser "L" (adcLowOffset th)) as [sL low].
  destruct (getInt parser "H" (adcHighOffset th)) as [sH high].
  reflexivity.
Qed.

Lemma shC_configureThermistor (parser : CanMessageGenericParser)
    (seen : bool) (th : Thermistor) :
  shC (snd (configureThermistor parser seen th)) =
  match GetFloatParam parser "C" with
  | Some c => c
  | None => if present (GetFloatParam parser "B") || seen
            then zero else shC th
  end.
Proof.
  unfold configureThermistor, getFloat.
  destruct (GetFloatParam parser "B") as [b |];
    destruct (GetFloatParam parser "C") as [c |];
    destruct (GetFloatParam parser "T") as [t |];
    destruct seen; reflexivity.
Qed.

(** From line 57 on Configure does not touch [shC]. *)
Lemma shC_after_thermistor (parser : CanMessageGenericParser)
    (seen2 : bool) (th2 : Thermistor) :
  shC (configured
         (let '(seen3, th3) :=
            if HAS_VREF_MONITOR then (seen2, th2)
            else configureOffsets parser seen2 th2 in
          if seen3 then
            let channel := GetAveragingFilterIndex (port th3) in
            let th4 :=
              mkThermistor (sensor th3) (port th3) channel (r25 th3) (beta th3)
                (shC th3) (seriesR th3) (isPT1000 th3) (shA th3) (shB th3)
                (adcLowOffset th3) (adcHighOffset th3) in
            mkConfigured ok th4 NothingWritten
              (if 0 <=? channel then Some (channel, Z.shiftl 1 AdcBits - 1)
               else None)
          else
            mkConfigured ok th3
              (if isPT1000 th3 then Pt1000Summary (seriesR th3) (offsetsOf th3)
               else ThermistorSummary (r25 th3) (beta th3) (shC th3) (seriesR th3)
                      (offsetsOf th3))
              None))
  = shC th2.
Proof.
  destruct HAS_VREF_MONITOR.
  - destruct seen2; reflexivity.
  - pose proof (shC_configureOffsets parser seen2 th2) as Hoff.
    destruct (configureOffsets parser seen2 th2) as [seen3 th3].
    cbn [snd] in Hoff. destruct seen3; exact Hoff.
Qed.

(** What Configure leaves in [shC] on a thermistor: the 'C' parameter when
    there is one; otherwise zero as soon as anything was seen before line
    45 (the port, 'R' or 'B'), and the old value only when nothing was. *)
Lemma Configure_shC (parser : CanMessageGenericParser) (th : Thermistor)
    (port1 : Z) (seen0 : bool) :
  ConfigurePort parser (port th) = Some (port1, seen0) ->
  isPT1000 th = false ->
  shC (configured (Configure parser th)) =
  match GetFloatParam parser "C" with
  | Some c => c
  | None =>
      if present (GetFloatParam parser "B")
         || (present (GetFloatParam parser "R") || seen0)
      then zero else shC th
  end.
Proof.
  intros Hport Hkind. unfold Configure. rewrite Hport.
  assert (Hseen : fst (getFloat parser "R" (seriesR th))
                  = present (GetFloatParam parser "R")).
  { unfold getFloat. destruct (GetFloatParam parser "R"); reflexivity. }
  destruct (getFloat parser "R" (seriesR th)) as [sR seriesR1].
  cbn [fst] in Hseen. subst sR. cbn [isPT1000]. rewrite Hkind. cbn [negb].
  match goal with
  | |- context [configureThermistor parser ?seen ?th1] =>
      pose proof (shC_configureThermistor parser seen th1) as Hth;
      destruct (configureThermistor parser seen th1) as [seen2 th2]
  end.
  cbn [snd shC] in Hth. rewrite <- Hth.
  apply shC_after_thermistor.
Qed.

(** Poll reaches the conversion of lines 124-175 when the filters are valid
    and the reference readings pass. *)
Lemma pollCall_converts (filters : Z -> ThermistorAveragingFilter)
    (th : Thermistor) (vssa vref temp : Z) :
  averagedReadings filters th = Some (vssa, vref, temp) ->
  readingsUsable filters th vssa vref = true ->
  pollCall filters th = Some (convertReading th vssa vref temp).
Proof.
  unfold averagedReadings, readingsUsable, pollCall.
  destruct (averaged (GetSum (filters (adcFilterChannel th))) _) as [t |];
    [| discriminate].
  destruct HAS_VREF_MONITOR.
  - destruct (averaged (GetSum (filters VssaFilterIndex)) _) as [a |];
      [| discriminate].
    destruct (averaged (GetSum (filters VrefFilterIndex)) _) as [r |];
      [| discriminate].
    intros Hread Huse. injection Hread as -> -> ->.
    destruct (IsValid (filters (adcFilterChannel th))); [| discriminate].
    destruct (IsValid (filters VrefFilterIndex)); [| discriminate].
    destruct (IsValid (filters VssaFilterIndex)); [| discriminate].
    cbn [andb] in *.
    destruct (vref <? _); [discriminate |].
    destruct (maxDrop <? vssa); [discriminate | reflexivity].
  - intros Hread Huse. injection Hread as <- <- ->.
    destruct (IsValid (filters (adcFilterChannel th))); [| discriminate].
    reflexivity.
Qed.


Lemma pollCall_open_circuit (filters : Z -> ThermistorAveragingFilter)
    (th : Thermistor) (vssa vref temp : Z) :
  averagedReadings filters th = Some (vssa, vref, temp) ->
  readingsUsable filters th vssa vref = true ->
  openCircuitCase th vssa vref temp ->
  pollCall filters th = Some (WithValue ABS_ZERO openCircuit).
Proof.
  intros Hread Huse Hcase.
  rewrite (pollCall_converts _ _ _ _ _ Hread Huse). f_equal.
  unfold convertReading. unfold openCircuitCase in Hcase. cbv zeta in Hcase.
  destruct Hcase as [Hdenom | [Hdenom [Hkind Hcold]]]; rewrite Hdenom.
  - reflexivity.
  - rewrite Hkind, Hcold. reflexivity.
Qed.

(** With a VREF monitor the denominator is the float of the difference of
    the two readings: a measured reading that reaches the reference
    reading is an open circuit. *)
Lemma pollCall_reading_reaches_reference
    (filters : Z -> ThermistorAveragingFilter)
    (th : Thermistor) (vssa vref temp : Z) :
  HAS_VREF_MONITOR = true ->
  averagedReadings filters th = Some (vssa, vref, temp) ->
  readingsUsable filters th vssa vref = true ->
  - 2 ^ 24 < vref - temp <= 0 ->
  pollCall filters th = Some (WithValue ABS_ZERO openCircuit).
Proof.
  intros Hbuild Hread Huse Hdiff.
  apply (pollCall_open_circuit _ _ _ _ _ Hread Huse).
  left. unfold denominator. rewrite Hbuild.
  apply of_Z_nonpositive; lia.
Qed.


End ThermistorFacts.

Section ThermistorWitnesses.
Import Machine Float TemperatureSensor Thermistor Mock.


(** C5 fails on the code: a Configure call that carries only the series
    resistor 'R' leaves beta alone and yet clears the cubic coefficient,
    which was not zero. *)
Theorem Configure_R_clears_shC :
  let parser := parserOf [("R"%char, of_Z 4700)] in
  GetFloatParam parser "B" = None /\
  GetFloatParam parser "C" = None /\
  isPT1000 thermistor0 = false /\
  shC thermistor0 <> zero /\
  beta (configured (Configure parser thermistor0)) = beta thermistor0 /\
  seriesR (configured (Configure parser thermistor0)) = of_Z 4700 /\
  shC (configured (Configure parser thermistor0)) = zero.
Proof.
  vm_compute. repeat split. discriminate.
Qed.

End ThermistorWitnesses.

(* ================================================================= *)
(** * Further properties of the LIS3DH driver *)

Section LIS3DHSetupFacts.
Import Machine Exec Platform SharedI2C LIS3DH LIS3DHSetup.
Context {B : Board} {R : LisRegister} {S : LisSetupRegister}.

Ltac run_setup :=
  cbv [bind getD setD io onSnd gets modify ret undefined diverge
       Select TransceivePacket Deselect
       digitalRead pinMode delayMicroseconds attachInterrupt TaskBase_Take
       step];
  cbn [fst snd hw trace].

Ltac run_setup_in H :=
  cbv [bind getD setD io onSnd gets modify ret undefined diverge
       Select TransceivePacket Deselect
       digitalRead pinMode delayMicroseconds attachInterrupt TaskBase_Take
       step] in H;
  cbn [fst snd hw trace] in H.

(** ** Relations kept by every step of a run *)

Section Preserved.
Variable Rel : Sys -> Sys -> Prop.
Hypothesis Rel_refl : forall s, Rel s s.
Hypothesis Rel_trans : forall s1 s2 s3, Rel s1 s2 -> Rel s2 s3 -> Rel s1 s3.

Lemma preserves_ret {A : Type} (a : A) : preserves Rel (ret a).
Proof. intros s a' s' Hrun. inversion Hrun; subst. apply Rel_refl. Qed.

Lemma preserves_bind {A C : Type} (m : M Sys A) (k : A -> M Sys C) :
  preserves Rel m -> (forall a, preserves Rel (k a)) -> preserves Rel (bind m k).
Proof.
  intros Hm Hk s c s' Hrun. unfold bind in Hrun.
  destruct (m s) as [[a s1] | |] eqn:Hms; try discriminate.
  apply (Rel_trans _ s1); [apply (Hm _ _ _ Hms) | apply (Hk a _ _ _ Hrun)].
Qed.

Lemma preserves_getD {A : Type} (f : State -> A) : preserves Rel (getD f).
Proof. intros s a s' Hrun. inversion Hrun; subst. apply Rel_refl. Qed.

Lemma preserves_undefined {A : Type} : preserves Rel (@undefined Sys A).
Proof. intros s a s' Hrun. discriminate Hrun. Qed.

Lemma preserves_diverge {A : Type} : preserves Rel (@diverge Sys A).
Proof. intros s a s' Hrun. discriminate Hrun. Qed.

Lemma preserves_setD (f : State -> State) :
  (forall d w, Rel (d, w) (f d, w)) -> preserves Rel (setD f).
Proof.
  intros Hf [d w] a s' Hrun. inversion Hrun; subst. apply Hf.
Qed.

End Preserved.

(** ** The bus discipline *)

Lemma lockRun_app (xs ys : list Event) :
  forall held,
  lockRun held (xs ++ ys) =
  match lockRun held xs with
  | Some held' => lockRun held' ys
  | None => None
  end.
Proof.
  induction xs as [| e xs IH]; intros held; [reflexivity |].
  cbn [app lockRun].
  destruct e; destruct held; try reflexivity; apply IH.
Qed.

Lemma releasesBus_refl (s : Sys) : releasesBus s s.
Proof. exists []. split; [symmetry; apply app_nil_r | reflexivity]. Qed.

Lemma releasesBus_trans (s1 s2 s3 : Sys) :
  releasesBus s1 s2 -> releasesBus s2 s3 -> releasesBus s1 s3.
Proof.
  intros [evs1 [Htr1 Hl1]] [evs2 [Htr2 Hl2]]. exists (evs1 ++ evs2). split.
  - rewrite Htr2, Htr1. symmetry. apply app_assoc.
  - rewrite lockRun_app, Hl1. exact Hl2.
Qed.

Lemma releasesBus_events (d d' : State) (w w' : World) (evs : list Event) :
  trace w' = trace w ++ evs -> lockRun false evs = Some false ->
  releasesBus (d, w) (d', w').
Proof. intros Htr Hl. exists evs. split; assumption. Qed.

Lemma releasesBus_ReadRegisters (reg n : Z) :
  preserves releasesBus (ReadRegisters reg n).
Proof.
  intros [d w] a [d' w'] Hrun.
  destruct ACCELEROMETER_USES_SPI eqn:Hbuild.
  - rewrite ReadRegisters_spi in Hrun by exact Hbuild. cbv zeta in Hrun.
    destruct (fst (Spi_Select Lis3dSpiTimeout (hw w)));
      apply Ok_inv, pair_equal_spec in Hrun; destruct Hrun as [_ Hs];
      apply pair_equal_spec in Hs; destruct Hs as [_ Hw]; subst w';
      eapply releasesBus_events; cbn [trace]; reflexivity.
  - rewrite ReadRegisters_i2c in Hrun by exact Hbuild. cbv zeta in Hrun.
    destruct (fst (Mutex_Take Lis3dI2CTimeout (hw w))) eqn:Htake.
    + rewrite Transfer_taken in Hrun by exact Htake. cbv zeta in Hrun.
      apply Ok_inv, pair_equal_spec in Hrun; destruct Hrun as [_ Hs];
      apply pair_equal_spec in Hs; destruct Hs as [_ Hw]; subst w';
      eapply releasesBus_events; cbn [trace]; reflexivity.
    + rewrite Transfer_busy in Hrun by exact Htake.
      apply Ok_inv, pair_equal_spec in Hrun; destruct Hrun as [_ Hs];
      apply pair_equal_spec in Hs; destruct Hs as [_ Hw]; subst w';
      eapply releasesBus_events; cbn [trace]; reflexivity.
Qed.

Lemma releasesBus_WriteRegisters (reg n : Z) :
  preserves releasesBus (WriteRegisters reg n).
Proof.
  intros [d w] a [d' w'] Hrun.
  destruct (Z_lt_le_dec (uint8 reg) 30) as [Hlow | Hreg].
  { rewrite WriteRegisters_reserved in Hrun by exact Hlow.
    inversion Hrun; subst. apply releasesBus_refl. }
  destruct ACCELEROMETER_USES_SPI eqn:Hbuild.
  - rewrite WriteRegisters_spi in Hrun by assumption. cbv zeta in Hrun.
    destruct (fst (Spi_Select Lis3dSpiTimeout (hw w)));
      apply Ok_inv, pair_equal_spec in Hrun; destruct Hrun as [_ Hs];
      apply pair_equal_spec in Hs; destruct Hs as [_ Hw]; subst w';
      eapply releasesBus_events; cbn [trace]; reflexivity.
  - rewrite WriteRegisters_i2c in Hrun by assumption. cbv zeta in Hrun.
    destruct (fst (Mutex_Take Lis3dI2CTimeout (hw w))) eqn:Htake.
    + rewrite Transfer_taken in Hrun by exact Htake. cbv zeta in Hrun.
      apply Ok_inv, pair_equal_spec in Hrun; destruct Hrun as [_ Hs];
      apply pair_equal_spec in Hs; destruct Hs as [_ Hw]; subst w';
      eapply releasesBus_events; cbn [trace]; reflexivity.
    + rewrite Transfer_busy in Hrun by exact Htake.
      apply Ok_inv, pair_equal_spec in Hrun; destruct Hrun as [_ Hs];
      apply pair_equal_spec in Hs; destruct Hs as [_ Hw]; subst w';
      eapply releasesBus_events; cbn [trace]; reflexivity.
Qed.


Lemma releasesBus_setD (f : State -> State) : preserves releasesBus (setD f).
Proof.
  intros [d w] a s' Hrun. inversion Hrun; subst.
  exists []. split; [symmetry; apply app_nil_r | reflexivity].
Qed.

(** A platform call other than a bus call, made while the bus is free. *)
Lemma releasesBus_io {A : Type} (m : M World A) :
  (forall w a w', m w = Ok (a, w') ->
     exists e, trace w' = trace w ++ [e] /\ lockRun false [e] = Some false) ->
  preserves releasesBus (io m).
Proof.
  intros Hm [d w] a [d' w'] Hrun. unfold io, onSnd in Hrun. cbn [fst snd] in Hrun.
  destruct (m w) as [[a0 w0] | |] eqn:Hmw; try discriminate.
  apply Ok_inv, pair_equal_spec in Hrun. destruct Hrun as [_ Hs].
  apply pair_equal_spec in Hs. destruct Hs as [_ Hw]. subst w0.
  destruct (Hm _ _ _ Hmw) as [e [Htr Hl]]. exists [e]. split; assumption.
Qed.

Lemma releasesBus_pinMode (pin : Z) (mode : PinMode) :
  preserves releasesBus (io (pinMode pin mode)).
Proof.
  apply releasesBus_io. intros w a w' Hrun. unfold pinMode in Hrun.
  inversion Hrun; subst. eexists. split; reflexivity.
Qed.

Lemma releasesBus_delay (us : Z) :
  preserves releasesBus (io (delayMicroseconds us)).
Proof.
  apply releasesBus_io. intros w a w' Hrun. unfold delayMicroseconds in Hrun.
  inversion Hrun; subst. eexists. split; reflexivity.
Qed.

Lemma releasesBus_digitalRead (pin : Z) :
  preserves releasesBus (io (digitalRead pin)).
Proof.
  apply releasesBus_io. intros w a w' Hrun. unfold digitalRead in Hrun.
  destruct (digitalRead_hw pin (hw w)) as [level h].
  inversion Hrun; subst. eexists. split; reflexivity.
Qed.

Lemma releasesBus_attachInterrupt (pin : Z) :
  preserves releasesBus (io (attachInterrupt pin)).
Proof.
  apply releasesBus_io. intros w a w' Hrun. unfold attachInterrupt in Hrun.
  destruct (attachInterrupt_hw pin (hw w)) as [attached h].
  inversion Hrun; subst. eexists. split; reflexivity.
Qed.

Lemma releasesBus_TaskBase_Take : preserves releasesBus (io TaskBase_Take).
Proof.
  apply releasesBus_io. intros w a w' Hrun. unfold TaskBase_Take in Hrun.
  destruct (TaskBase_Take_hw (hw w)) as [irqs h].
  inversion Hrun; subst. eexists. split; reflexivity.
Qed.

Lemma releasesBus_io_gets {A : Type} (f : World -> A) :
  preserves releasesBus (io (gets f)).
Proof.
  intros [d w] a s' Hrun. inversion Hrun; subst. apply releasesBus_refl.
Qed.

(** Take a run apart along its binds, branches and known pieces. *)
Ltac bus :=
  repeat first
    [ apply (preserves_bind releasesBus releasesBus_trans)
    | apply (preserves_ret releasesBus releasesBus_refl)
    | apply (preserves_getD releasesBus releasesBus_refl)
    | apply preserves_undefined
    | apply preserves_diverge
    | apply releasesBus_setD
    | apply releasesBus_ReadRegisters
    | apply releasesBus_WriteRegisters
    | apply releasesBus_pinMode
    | apply releasesBus_delay
    | apply releasesBus_digitalRead
    | apply releasesBus_attachInterrupt
    | apply releasesBus_TaskBase_Take
    | apply releasesBus_io_gets
    | assumption
    | match goal with
      | H : context [preserves] |- preserves _ _ => apply H
      end
    | match goal with
      | |- forall _, _ => intro
      | |- preserves _ (if ?b then _ else _) => destruct b
      | |- preserves _ (match ?x with _ => _ end) => destruct x
      end ].

Lemma releasesBus_ReadRegister (reg : Z) : preserves releasesBus (ReadRegister reg).
Proof. unfold ReadRegister. bus. Qed.

Lemma releasesBus_WriteRegister (reg val : Z) :
  preserves releasesBus (WriteRegister reg val).
Proof. unfold WriteRegister. bus. Qed.

Lemma releasesBus_clearFifo (more : Z -> bool) (fuel : nat) :
  preserves releasesBus (clearFifo more fuel).
Proof.
  induction fuel as [| n IH]; cbn [clearFifo]; [apply preserves_diverge |].
  pose proof (releasesBus_ReadRegister FifoSource). bus.
Qed.

Lemma releasesBus_waitForData (fuel : nat) : preserves releasesBus (waitForData fuel).
Proof.
  induction fuel as [| n IH]; cbn [waitForData]; [apply preserves_diverge |].
  bus.
Qed.

Lemma releasesBus_StartCollecting (fuel : nat) (axes : Z) :
  preserves releasesBus (StartCollecting fuel axes).
Proof.
  unfold StartCollecting, armCollection, enableAndAttach.
  pose proof (fun more => releasesBus_clearFifo more fuel).
  pose proof releasesBus_WriteRegister. bus.
Qed.

Lemma releasesBus_CollectData (fuel : nat) : preserves releasesBus (CollectData fuel).
Proof.
  unfold CollectData, awaitInterrupt, deliverSamples, computeDataRate.
  pose proof (releasesBus_waitForData fuel).
  pose proof releasesBus_ReadRegister. bus.
Qed.

Lemma releasesBus_storeData (vals : list Z) : preserves releasesBus (storeData vals).
Proof. unfold storeData. bus. Qed.

Lemma releasesBus_probe : preserves releasesBus probe.
Proof. unfold probe. pose proof releasesBus_ReadRegister. bus. Qed.

Lemma releasesBus_probeAddresses (addrs : list Z) :
  preserves releasesBus (probeAddresses addrs).
Proof.
  induction addrs as [| addr rest IH]; cbn [probeAddresses];
    pose proof releasesBus_probe; bus.
Qed.

Lemma releasesBus_Configure (samplingRate resolution : Z) :
  preserves releasesBus (Configure samplingRate resolution).
Proof.
  unfold Configure, writeControlAndFifo.
  pose proof releasesBus_WriteRegister. pose proof releasesBus_storeData.
  cbv zeta.
  apply (preserves_bind releasesBus releasesBus_trans); [bus |].
  intros ty. destruct ty.
  - destruct (select3DH _ _) as [[rate res'] ctrl]. bus.
  - destruct (selectRate 0 _) as [rate ctrl]. bus.
  - destruct (selectRate _ _) as [rate ctrl]. bus.
Qed.

(** X1. Whatever the platform answers, each public operation of the driver
    that returns leaves the bus as it found it: it asks for the bus only
    when it does not hold it, transfers and releases only while it holds
    it, never suspends the task while holding it, and has released it
    when it returns. *)
Theorem driver_releases_bus :
  preserves releasesBus CheckPresent /\
  preserves releasesBus ReadStatus /\
  (forall samplingRate resolution,
     preserves releasesBus (Configure samplingRate resolution)) /\
  (forall fuel axes, preserves releasesBus (StartCollecting fuel axes)) /\
  (forall fuel, preserves releasesBus (CollectData fuel)) /\
  preserves releasesBus StopCollecting.
Proof.
  pose proof releasesBus_probe. pose proof releasesBus_probeAddresses.
  pose proof releasesBus_ReadRegister. pose proof releasesBus_WriteRegister.
  split; [unfold CheckPresent; bus |].
  split; [unfold ReadStatus; bus |].
  split; [exact releasesBus_Configure |].
  split; [exact releasesBus_StartCollecting |].
  split; [exact releasesBus_CollectData |].
  unfold StopCollecting. bus.
Qed.


(** ** What register accesses leave alone *)

Lemma bind_Ok {A C : Type} (m : M Sys A) (k : A -> M Sys C) (s : Sys)
    (c : C) (s' : Sys) :
  bind m k s = Ok (c, s') ->
  exists a s1, m s = Ok (a, s1) /\ k a s1 = Ok (c, s').
Proof.
  unfold bind. destruct (m s) as [[a s1] | |]; try discriminate.
  intros Hk. exists a, s1. split; [reflexivity | exact Hk].
Qed.

Lemma preserves_weaken (Rel Rel' : Sys -> Sys -> Prop) {A : Type} (m : M Sys A) :
  (forall s s', Rel s s' -> Rel' s s') -> preserves Rel m -> preserves Rel' m.
Proof. intros Himp Hm s a s' Hrun. apply Himp. apply (Hm _ _ _ Hrun). Qed.

Lemma sameCore_refl (s : Sys) : sameCore s s.
Proof. reflexivity. Qed.

Lemma sameCore_trans (s1 s2 s3 : Sys) :
  sameCore s1 s2 -> sameCore s2 s3 -> sameCore s1 s3.
Proof. unfold sameCore. intros H1 H2. congruence. Qed.

Lemma sameSetup_refl (s : Sys) : sameSetup s s.
Proof. reflexivity. Qed.

Lemma sameSetup_trans (s1 s2 s3 : Sys) :
  sameSetup s1 s2 -> sameSetup s2 s3 -> sameSetup s1 s3.
Proof. unfold sameSetup. intros H1 H2. congruence. Qed.

Lemma sameCore_sameSetup (s s' : Sys) : sameCore s s' -> sameSetup s s'.
Proof. unfold sameCore, sameSetup, setup. intros H. rewrite H. reflexivity. Qed.

Lemma core_set_transferBuffer (b : list Z) (d : State) :
  core (set_transferBuffer b d) = core d.
Proof. destruct b; reflexivity. Qed.

Lemma sameCore_io {A : Type} (m : M World A) : preserves sameCore (io m).
Proof.
  intros [d w] a [d' w'] Hrun. unfold io, onSnd in Hrun. cbn [fst snd] in Hrun.
  destruct (m w) as [[a0 w0] | |]; try discriminate.
  apply Ok_inv, pair_equal_spec in Hrun. destruct Hrun as [_ Hs].
  apply pair_equal_spec in Hs. destruct Hs as [Hd _]. subst d'. reflexivity.
Qed.

Lemma sameCore_ReadRegisters (reg n : Z) : preserves sameCore (ReadRegisters reg n).
Proof.
  intros [d w] a [d' w'] Hrun. unfold sameCore. cbn [fst].
  destruct ACCELEROMETER_USES_SPI eqn:Hbuild.
  - rewrite ReadRegisters_spi in Hrun by exact Hbuild. cbv zeta in Hrun.
    destruct (fst (Spi_Select Lis3dSpiTimeout (hw w)));
      apply Ok_inv, pair_equal_spec in Hrun; destruct Hrun as [_ Hs];
      apply pair_equal_spec in Hs; destruct Hs as [Hd _]; subst d';
      rewrite ?core_set_transferBuffer; reflexivity.
  - rewrite ReadRegisters_i2c in Hrun by exact Hbuild. cbv zeta in Hrun.
    destruct (Transfer _ _ _ _ _ w) as [[r w1] | |]; try discriminate.
    apply Ok_inv, pair_equal_spec in Hrun. destruct Hrun as [_ Hs].
    apply pair_equal_spec in Hs. destruct Hs as [Hd _]. subst d'.
    rewrite core_set_transferBuffer. reflexivity.
Qed.

Lemma sameCore_WriteRegisters (reg n : Z) : preserves sameCore (WriteRegisters reg n).
Proof.
  intros [d w] a [d' w'] Hrun. unfold sameCore. cbn [fst].
  destruct (Z_lt_le_dec (uint8 reg) 30) as [Hlow | Hreg].
  { rewrite WriteRegisters_reserved in Hrun by exact Hlow.
    inversion Hrun; subst. reflexivity. }
  destruct ACCELEROMETER_USES_SPI eqn:Hbuild.
  - rewrite WriteRegisters_spi in Hrun by assumption. cbv zeta in Hrun.
    destruct (fst (Spi_Select Lis3dSpiTimeout (hw w)));
      apply Ok_inv, pair_equal_spec in Hrun; destruct Hrun as [_ Hs];
      apply pair_equal_spec in Hs; destruct Hs as [Hd _]; subst d';
      rewrite ?core_set_transferBuffer; reflexivity.
  - rewrite WriteRegisters_i2c in Hrun by assumption. cbv zeta in Hrun.
    destruct (Transfer _ _ _ _ _ w) as [[r w1] | |]; try discriminate.
    apply Ok_inv, pair_equal_spec in Hrun. destruct Hrun as [_ Hs].
    apply pair_equal_spec in Hs. destruct Hs as [Hd _]. subst d'.
    rewrite core_set_transferBuffer. reflexivity.
Qed.

Lemma sameCore_set_data (v : list Z) : preserves sameCore (setD (set_data v)).
Proof. apply preserves_setD. intros d w. reflexivity. Qed.

(** Take a run apart for a relation with the given reflexivity and
    transitivity; the hypotheses in the context serve as the pieces. *)
Ltac keep refl trans :=
  repeat first
    [ match goal with
      | H : context [preserves] |- preserves _ _ => apply H
      end
    | apply (preserves_bind _ trans)
    | apply (preserves_ret _ refl)
    | apply (preserves_getD _ refl)
    | apply preserves_undefined
    | apply preserves_diverge
    | match goal with
      | |- forall _, _ => intro
      | |- preserves _ (if ?b then _ else _) => destruct b
      | |- preserves _ (match ?x with _ => _ end) => destruct x
      end ].

Lemma sameCore_ReadRegister (reg : Z) : preserves sameCore (ReadRegister reg).
Proof.
  unfold ReadRegister. pose proof sameCore_ReadRegisters.
  keep sameCore_refl sameCore_trans.
Qed.

Lemma sameCore_WriteRegister (reg val : Z) : preserves sameCore (WriteRegister reg val).
Proof.
  unfold WriteRegister. pose proof sameCore_WriteRegisters.
  pose proof sameCore_set_data. keep sameCore_refl sameCore_trans.
Qed.

Lemma sameCore_storeData (vals : list Z) : preserves sameCore (storeData vals).
Proof.
  unfold storeData. pose proof sameCore_set_data.
  keep sameCore_refl sameCore_trans.
Qed.

Lemma sameCore_writeControlAndFifo (ok : bool) (controls : list Z) (fifo : Z) :
  preserves sameCore (writeControlAndFifo ok controls fifo).
Proof.
  unfold writeControlAndFifo. pose proof sameCore_WriteRegisters.
  pose proof sameCore_WriteRegister. pose proof sameCore_storeData.
  keep sameCore_refl sameCore_trans.
Qed.

Lemma writeControlAndFifo_false (controls : list Z) (fifo : Z) (s : Sys) :
  writeControlAndFifo false controls fifo s = Ok (false, s).
Proof. reflexivity. Qed.

Lemma sameCore_fields (s s' : Sys) :
  sameCore s s' ->
  accelerometerType (fst s') = accelerometerType (fst s) /\
  ctrlReg_0x20 (fst s') = ctrlReg_0x20 (fst s) /\
  totalNumRead (fst s') = totalNumRead (fst s) /\
  client (fst s') = client (fst s) /\
  interruptError (fst s') = interruptError (fst s) /\
  int1Pin (fst s') = int1Pin (fst s).
Proof.
  unfold sameCore. intros H.
  repeat split;
    [ apply (f_equal accelerometerType) in H
    | apply (f_equal ctrlReg_0x20) in H
    | apply (f_equal totalNumRead) in H
    | apply (f_equal client) in H
    | apply (f_equal interruptError) in H
    | apply (f_equal int1Pin) in H ]; exact H.
Qed.

(** The outcome of Configure: the chip recorded stays, and a true result
    comes with the negotiated rate and resolution and with the control
    register value cached for StartCollecting. *)
Lemma Configure_outcome (samplingRate resolution : Z) (d : State) (w : World)
    (b : bool) (rate res : Z) (d' : State) (w' : World) :
  Configure samplingRate resolution (d, w) = Ok ((b, rate, res), (d', w')) ->
  accelerometerType d' = accelerometerType d /\
  (b = true ->
   (rate, res, ctrlReg_0x20 d')
   = negotiated (accelerometerType d) (uint16 samplingRate) (uint8 resolution)).
Proof.
  unfold Configure. cbv zeta. intros Hrun.
  apply bind_Ok in Hrun. destruct Hrun as [ty [s0 [Hty Hrun]]].
  unfold getD, gets in Hty. apply Ok_inv, pair_equal_spec in Hty.
  destruct Hty as [Hty Hs0]. cbn [fst] in Hty. subst ty s0.
  destruct (accelerometerType d) eqn:Htype; cbn [negotiated].
  - destruct (select3DH (uint16 samplingRate) (uint8 resolution))
      as [[rate0 res0] ctrl] eqn:Hsel.
    apply bind_Ok in Hrun. destruct Hrun as [u [s1 [Hset Hrun]]].
    unfold setD, modify in Hset. apply Ok_inv, pair_equal_spec in Hset.
    destruct Hset as [_ Hs1]. cbn [fst snd] in Hs1. subst s1.
    apply bind_Ok in Hrun. destruct Hrun as [ok2 [s2 [Hwrite Hrun]]].
    apply sameCore_writeControlAndFifo, sameCore_fields in Hwrite.
    cbn [fst set_ctrlReg_0x20 accelerometerType ctrlReg_0x20] in Hwrite.
    destruct Hwrite as [Hty [Hctrl _]].
    unfold ret in Hrun. apply Ok_inv, pair_equal_spec in Hrun.
    destruct Hrun as [Hres Hs2]. subst s2. cbn [fst] in Hty, Hctrl.
    inversion Hres; subst. split; [congruence |]. intros _. congruence.
  - apply bind_Ok in Hrun. destruct Hrun as [ok [s1 [Hfirst Hrun]]].
    apply sameCore_WriteRegister, sameCore_fields in Hfirst.
    destruct s1 as [d1 w1]. cbn [fst] in Hfirst.
    destruct Hfirst as [Hty1 [Hctrl1 _]].
    destruct (selectRate 0 (uint16 samplingRate)) as [rate0 ctrl] eqn:Hsel.
    apply bind_Ok in Hrun. destruct Hrun as [u [s2 [Hset Hrun]]].
    apply bind_Ok in Hrun. destruct Hrun as [ok2 [s3 [Hwrite Hrun]]].
    unfold ret in Hrun. apply Ok_inv, pair_equal_spec in Hrun.
    destruct Hrun as [Hres Hs3]. subst s3. inversion Hres; subst.
    destruct ok.
    + unfold setD, modify in Hset. apply Ok_inv, pair_equal_spec in Hset.
      destruct Hset as [_ Hs2]. cbn [fst snd] in Hs2. subst s2.
      apply sameCore_writeControlAndFifo, sameCore_fields in Hwrite.
      cbn [fst set_ctrlReg_0x20 accelerometerType ctrlReg_0x20] in Hwrite.
      destruct Hwrite as [Hty [Hctrl _]].
      split; [congruence |]. intros _. cbn [fst snd]. congruence.
    + unfold ret in Hset. apply Ok_inv, pair_equal_spec in Hset.
      destruct Hset as [_ Hs2]. subst s2.
      rewrite writeControlAndFifo_false in Hwrite.
      apply Ok_inv, pair_equal_spec in Hwrite. destruct Hwrite as [Hb Hs].
      inversion Hs; subst. split; [congruence | discriminate].
  - apply bind_Ok in Hrun. destruct Hrun as [ok [s1 [Hfirst Hrun]]].
    apply sameCore_WriteRegister, sameCore_fields in Hfirst.
    destruct s1 as [d1 w1]. cbn [fst] in Hfirst.
    destruct Hfirst as [Hty1 [Hctrl1 _]].
    destruct (selectRate (Z.shiftl 1 2) (uint16 samplingRate))
      as [rate0 ctrl] eqn:Hsel.
    apply bind_Ok in Hrun. destruct Hrun as [u [s2 [Hset Hrun]]].
    apply bind_Ok in Hrun. destruct Hrun as [ok2 [s3 [Hwrite Hrun]]].
    unfold ret in Hrun. apply Ok_inv, pair_equal_spec in Hrun.
    destruct Hrun as [Hres Hs3]. subst s3. inversion Hres; subst.
    destruct ok.
    + unfold setD, modify in Hset. apply Ok_inv, pair_equal_spec in Hset.
      destruct Hset as [_ Hs2]. cbn [fst snd] in Hs2. subst s2.
      apply sameCore_writeControlAndFifo, sameCore_fields in Hwrite.
      cbn [fst set_ctrlReg_0x20 accelerometerType ctrlReg_0x20] in Hwrite.
      destruct Hwrite as [Hty [Hctrl _]].
      split; [congruence |]. intros _. cbn [fst snd]. congruence.
    + unfold ret in Hset. apply Ok_inv, pair_equal_spec in Hset.
      destruct Hset as [_ Hs2]. subst s2.
      rewrite writeControlAndFifo_false in Hwrite.
      apply Ok_inv, pair_equal_spec in Hwrite. destruct Hwrite as [Hb Hs].
      inversion Hs; subst. split; [congruence | discriminate].
Qed.

(** ** Configure *)

Lemma negotiated_supported (ty : AccelerometerType.t) (samplingRate resolution : Z) :
  supported ty (fst (fst (negotiated ty samplingRate resolution)))
               (snd (fst (negotiated ty samplingRate resolution))).
Proof.
  destruct ty; cbn [negotiated supported]; unfold select3DH, selectRate.
  - destruct (12 <=? resolution); [| destruct (resolution <? 10)];
      destruct (1000 <=? samplingRate); cbn [Z.leb Z.compare Pos.compare Pos.compare_cont];
      try destruct (5000 <=? samplingRate); cbn [fst snd]; tauto.
  - destruct ((samplingRate =? 0) || (1200 <=? samplingRate));
      [| destruct (600 <=? samplingRate)]; cbn [fst snd]; tauto.
  - destruct ((samplingRate =? 0) || (1200 <=? samplingRate));
      [| destruct (600 <=? samplingRate)]; cbn [fst snd]; tauto.
Qed.

(** Asking for what was negotiated negotiates the same again. *)
Lemma negotiated_again (ty : AccelerometerType.t) (samplingRate resolution : Z) :
  negotiated ty
    (uint16 (fst (fst (negotiated ty samplingRate resolution))))
    (uint8 (snd (fst (negotiated ty samplingRate resolution))))
  = negotiated ty samplingRate resolution.
Proof.
  destruct ty; cbn [negotiated]; unfold select3DH, selectRate.
  - destruct (12 <=? resolution); [| destruct (resolution <? 10)];
      destruct (1000 <=? samplingRate); cbn [Z.leb Z.compare Pos.compare Pos.compare_cont];
      try destruct (5000 <=? samplingRate); reflexivity.
  - destruct ((samplingRate =? 0) || (1200 <=? samplingRate));
      [| destruct (600 <=? samplingRate)]; reflexivity.
  - destruct ((samplingRate =? 0) || (1200 <=? samplingRate));
      [| destruct (600 <=? samplingRate)]; reflexivity.
Qed.

(** X2. A Configure that returns true hands back a rate and a resolution
    the chip supports (LIS3DH: 400 Hz at 8, 10 or 12 bits, 1344 Hz at 10 or
    12 bits, 1600 or 5376 Hz at 8 bits; LIS3DSH: 400, 800 or 1600 Hz at 16
    bits; LIS2DW: the same rates at 14 bits), whatever was asked for, and
    leaves the recorded chip type as it was. *)
Theorem Configure_supported (samplingRate resolution : Z) (d : State) (w : World)
    (rate res : Z) (d' : State) (w' : World) :
  Configure samplingRate resolution (d, w) = Ok ((true, rate, res), (d', w')) ->
  supported (accelerometerType d) rate res /\
  accelerometerType d' = accelerometerType d.
Proof.
  intros Hrun. destruct (Configure_outcome _ _ _ _ _ _ _ _ _ Hrun) as [Hty Hneg].
  specialize (Hneg eq_refl). split; [| exact Hty].
  pose proof (negotiated_supported (accelerometerType d)
                (uint16 samplingRate) (uint8 resolution)) as Hsup.
  rewrite <- Hneg in Hsup. exact Hsup.
Qed.

(** X3. Configure is idempotent on its results: after a Configure that
    returned true, a Configure asked for the rate and resolution it handed
    back, if it returns true as well, hands back the same rate and
    resolution and caches the same control register value. *)
Theorem Configure_again (samplingRate resolution : Z) (d : State) (w : World)
    (rate res : Z) (d1 : State) (w1 w2 : World)
    (rate2 res2 : Z) (d2 : State) (w3 : World) :
  Configure samplingRate resolution (d, w) = Ok ((true, rate, res), (d1, w1)) ->
  Configure rate res (d1, w2) = Ok ((true, rate2, res2), (d2, w3)) ->
  rate2 = rate /\ res2 = res /\ ctrlReg_0x20 d2 = ctrlReg_0x20 d1.
Proof.
  intros Hfirst Hsecond.
  destruct (Configure_outcome _ _ _ _ _ _ _ _ _ Hfirst) as [Hty1 Hneg1].
  destruct (Configure_outcome _ _ _ _ _ _ _ _ _ Hsecond) as [_ Hneg2].
  specialize (Hneg1 eq_refl). specialize (Hneg2 eq_refl).
  rewrite Hty1 in Hneg2.
  pose proof (negotiated_again (accelerometerType d)
                (uint16 samplingRate) (uint8 resolution)) as Hagain.
  rewrite <- Hneg1 in Hagain. cbn [fst snd] in Hagain.
  rewrite Hagain in Hneg2. inversion Hneg2. auto.
Qed.




(** ** The transfers of a successful Configure *)


Lemma madeTransfers_nil (s : Sys) : madeTransfers [] s s.
Proof. exists []. split; [symmetry; apply app_nil_r | split; reflexivity]. Qed.






(** ** CheckPresent *)

Lemma ReadRegister_Some (reg v : Z) (s s' : Sys) :
  ReadRegister reg s = Ok (Some v, s') ->
  exists rest, transferBuffer_data (fst s') = v :: rest.
Proof.
  unfold ReadRegister. intros Hrun.
  apply bind_Ok in Hrun. destruct Hrun as [ok [s1 [_ Hrun]]].
  destruct ok; [| discriminate].
  apply bind_Ok in Hrun. destruct Hrun as [dat [s2 [Hget Hrun]]].
  unfold getD, gets in Hget. apply Ok_inv, pair_equal_spec in Hget.
  destruct Hget as [Hdat Hs2]. subst s2.
  destruct dat as [| v0 rest]; [discriminate |].
  unfold ret in Hrun. apply Ok_inv, pair_equal_spec in Hrun.
  destruct Hrun as [Hv Hs]. subst s'. inversion Hv; subst.
  exists rest. exact Hdat.
Qed.

Lemma probe_outcome (d : State) (w : World) (b : bool) (d' : State) (w' : World) :
  probe (d, w) = Ok (b, (d', w')) ->
  client d' = client d /\
  interruptError d' = interruptError d /\
  (b = true -> identified d') /\
  (b = false -> accelerometerType d' = accelerometerType d).
Proof.
  unfold probe. intros Hrun.
  apply bind_Ok in Hrun. destruct Hrun as [r [[d1 w1] [Hread Hrun]]].
  pose proof (sameCore_fields _ _ (sameCore_ReadRegister _ _ _ _ Hread)) as Hsame.
  cbn [fst] in Hsame. destruct Hsame as [Hty [_ [_ [Hcl [Herr _]]]]].
  destruct r as [val |].
  - apply ReadRegister_Some in Hread. destruct Hread as [rest Hdata].
    cbn [fst] in Hdata.
    destruct (identify val) as [ty |] eqn:Hid.
    + apply bind_Ok in Hrun. destruct Hrun as [u [s2 [Hset Hrun]]].
      unfold setD, modify in Hset. apply Ok_inv, pair_equal_spec in Hset.
      destruct Hset as [_ Hs2]. subst s2.
      unfold ret in Hrun. apply Ok_inv, pair_equal_spec in Hrun.
      destruct Hrun as [Hb Hs]. inversion Hs; subst. cbn [fst snd].
      split; [exact Hcl |]. split; [exact Herr |].
      split; [| discriminate].
      intros _. exists val, rest. split; [exact Hdata | exact Hid].
    + unfold ret in Hrun. apply Ok_inv, pair_equal_spec in Hrun.
      destruct Hrun as [Hb Hs]. inversion Hs; subst.
      split; [exact Hcl |]. split; [exact Herr |].
      split; [discriminate | intros _; exact Hty].
  - unfold ret in Hrun. apply Ok_inv, pair_equal_spec in Hrun.
    destruct Hrun as [Hb Hs]. inversion Hs; subst.
    split; [exact Hcl |]. split; [exact Herr |].
    split; [discriminate | intros _; exact Hty].
Qed.

Lemma probeAddresses_outcome (addrs : list Z) :
  forall (d : State) (w : World) (b : bool) (d' : State) (w' : World),
  probeAddresses addrs (d, w) = Ok (b, (d', w')) ->
  interruptError d' = interruptError d /\
  (b = true -> identified d' /\ In (address (client d')) addrs) /\
  (b = false -> accelerometerType d' = accelerometerType d).
Proof.
  induction addrs as [| addr rest IH]; intros d w b d' w' Hrun;
    cbn [probeAddresses] in Hrun.
  - unfold ret in Hrun. apply Ok_inv, pair_equal_spec in Hrun.
    destruct Hrun as [Hb Hs]. inversion Hs; subst.
    split; [reflexivity |]. split; [discriminate | reflexivity].
  - apply bind_Ok in Hrun. destruct Hrun as [u [s1 [Hset Hrun]]].
    unfold setD, modify in Hset. apply Ok_inv, pair_equal_spec in Hset.
    destruct Hset as [_ Hs1]. subst s1. cbn [fst snd] in Hrun.
    apply bind_Ok in Hrun. destruct Hrun as [found [[d2 w2] [Hprobe Hrun]]].
    apply probe_outcome in Hprobe.
    cbn [set_client client interruptError accelerometerType] in Hprobe.
    destruct Hprobe as [Hcl [Herr [Hfound Hnot]]].
    destruct found.
    + unfold ret in Hrun. apply Ok_inv, pair_equal_spec in Hrun.
      destruct Hrun as [Hb Hs]. inversion Hs; subst.
      split; [exact Herr |]. split; [| discriminate].
      intros _. split; [apply Hfound; reflexivity |].
      rewrite Hcl. cbn. left. reflexivity.
    + apply IH in Hrun. destruct Hrun as [Herr' [Htrue Hfalse]].
      split; [congruence |]. split.
      * intros Hb. destruct (Htrue Hb) as [Hid Hin].
        split; [exact Hid | right; exact Hin].
      * intros Hb. rewrite (Hfalse Hb). apply Hnot. reflexivity.
Qed.

(** X6. CheckPresent always clears the interrupt-error flag.  When it
    returns true, the chip it has recorded is the one whose WHO_AM_I value
    (0x33, 0x3F or 0x44) the last read delivered, and in the I2C build the
    client is left bound to the one of the four addresses that answered.
    When it returns false, the recorded chip is the one from before. *)
Theorem CheckPresent_identifies (d : State) (w : World) (b : bool)
    (d' : State) (w' : World) :
  CheckPresent (d, w) = Ok (b, (d', w')) ->
  interruptError d' = false /\
  (b = true ->
   identified d' /\
   (ACCELEROMETER_USES_SPI = false -> In (address (client d')) LisAddresses)) /\
  (b = false -> accelerometerType d' = accelerometerType d).
Proof.
  unfold CheckPresent. intros Hrun.
  apply bind_Ok in Hrun. destruct Hrun as [u [s1 [Hset Hrun]]].
  unfold setD, modify in Hset. apply Ok_inv, pair_equal_spec in Hset.
  destruct Hset as [_ Hs1]. subst s1. cbn [fst snd] in Hrun.
  destruct ACCELEROMETER_USES_SPI.
  - apply probe_outcome in Hrun.
    cbn [set_interruptError interruptError accelerometerType] in Hrun.
    destruct Hrun as [_ [Herr [Htrue Hfalse]]].
    split; [exact Herr |]. split; [| exact Hfalse].
    intros Hb. split; [exact (Htrue Hb) | discriminate].
  - apply probeAddresses_outcome in Hrun.
    cbn [set_interruptError interruptError accelerometerType] in Hrun.
    destruct Hrun as [Herr [Htrue Hfalse]].
    split; [exact Herr |]. split; [| exact Hfalse].
    intros Hb. destruct (Htrue Hb) as [Hid Hin]. split; [exact Hid | intros _; exact Hin].
Qed.

(** ** Interrupts and the sample count *)

(** X7. After any interrupts, the last of them at time [now], the latest
    interrupt time is [now], no task is registered as waiting and the
    sample count is untouched.  The first interrupt time is [now] as well
    as long as no samples were counted (every interrupt before the first
    batch moves it), and is left alone once samples were counted. *)
Theorem Int1Isr_sequence (irqs : list Z) (now : Z) (d : State) :
  let d' := fold_left (fun acc t => Int1Isr t acc) (irqs ++ [now]) d in
  lastInterruptTime d' = now /\
  taskWaiting d' = None /\
  totalNumRead d' = totalNumRead d /\
  firstInterruptTime d' =
    (if totalNumRead d =? 0 then now else firstInterruptTime d) /\
  setup d' = setup d.
Proof.
  cbv zeta. rewrite fold_left_app. cbn [fold_left].
  set (d0 := fold_left (fun acc t => Int1Isr t acc) irqs d).
  assert (Hd0 : totalNumRead d0 = totalNumRead d /\
                setup d0 = setup d /\
                ((totalNumRead d =? 0) = false ->
                 firstInterruptTime d0 = firstInterruptTime d)).
  { subst d0. revert d. induction irqs as [| t rest IH]; intros d.
    - cbn. auto.
    - cbn [fold_left]. destruct (IH (Int1Isr t d)) as [Htot [Hsetup Hfirst]].
      unfold Int1Isr in *.
      destruct (totalNumRead d =? 0) eqn:Hzero;
        cbn [totalNumRead set_taskWaiting set_lastInterruptTime
             set_firstInterruptTime firstInterruptTime] in *;
        rewrite ?Hzero in *; (split; [exact Htot | split; [exact Hsetup |]]);
        intros Hne; try discriminate; rewrite (Hfirst Hne); reflexivity. }
  destruct Hd0 as [Htot [Hsetup Hfirst]].
  unfold Int1Isr. rewrite Htot.
  destruct (totalNumRead d =? 0) eqn:Hzero;
    cbn [lastInterruptTime taskWaiting totalNumRead firstInterruptTime
         set_taskWaiting set_lastInterruptTime set_firstInterruptTime];
    repeat split; try exact Htot; try (apply Hfirst; reflexivity);
    rewrite <- Hsetup; reflexivity.
Qed.

(** ** CollectData *)

Lemma sameSetup_io {A : Type} (m : M World A) : preserves sameSetup (io m).
Proof.
  apply (preserves_weaken sameCore); [apply sameCore_sameSetup | apply sameCore_io].
Qed.

Lemma setup_Int1Isr (now : Z) (d : State) : setup (Int1Isr now d) = setup d.
Proof. unfold Int1Isr. destruct (totalNumRead d =? 0); reflexivity. Qed.

Lemma setup_interrupts (irqs : list Z) :
  forall d, setup (fold_left (fun acc now => Int1Isr now acc) irqs d) = setup d.
Proof.
  induction irqs as [| t rest IH]; intros d; [reflexivity |].
  cbn [fold_left]. rewrite IH. apply setup_Int1Isr.
Qed.

Lemma sameSetup_waitForData (fuel : nat) : preserves sameSetup (waitForData fuel).
Proof.
  induction fuel as [| n IH]; cbn [waitForData]; [apply preserves_diverge |].
  pose proof (@sameSetup_io bool). pose proof (@sameSetup_io (list Z)).
  assert (Hirq : forall irqs,
            preserves sameSetup
              (setD (fun d => fold_left (fun acc now => Int1Isr now acc) irqs d))).
  { intros irqs. apply preserves_setD. intros d w. apply setup_interrupts. }
  keep sameSetup_refl sameSetup_trans.
Qed.

Lemma sameSetup_awaitInterrupt (fuel : nat) : preserves sameSetup (awaitInterrupt fuel).
Proof.
  unfold awaitInterrupt. pose proof (sameSetup_waitForData fuel).
  pose proof (@sameSetup_io Z).
  assert (Hset : forall v, preserves sameSetup (setD (set_taskWaiting v))).
  { intros v. apply preserves_setD. intros d w. reflexivity. }
  keep sameSetup_refl sameSetup_trans.
Qed.

Lemma sameSetup_fields (s s' : Sys) :
  sameSetup s s' ->
  accelerometerType (fst s') = accelerometerType (fst s) /\
  totalNumRead (fst s') = totalNumRead (fst s).
Proof.
  unfold sameSetup. intros H. split;
    [apply (f_equal accelerometerType) in H | apply (f_equal totalNumRead) in H];
    exact H.
Qed.

Lemma land_mask_range (x : Z) (n : Z) :
  0 <= n -> 0 <= Z.land x (Z.ones n) <= Z.ones n.
Proof.
  intros Hn. rewrite Z.land_ones by exact Hn.
  pose proof (Z.mod_pos_bound x (2 ^ n)) as Hb.
  rewrite Z.ones_equiv. assert (0 < 2 ^ n) by (apply Z.pow_pos_nonneg; lia). lia.
Qed.

Lemma samplesAvailable_range (ty : AccelerometerType.t) (fifoStatus : Z) :
  0 <= samplesAvailable ty fifoStatus
    <= match ty with AccelerometerType.LIS2DW => 63 | _ => 32 end.
Proof.
  pose proof (land_mask_range fifoStatus 5) as H5.
  pose proof (land_mask_range fifoStatus 6) as H6.
  change (Z.ones 5) with 31 in H5. change (Z.ones 6) with 63 in H6.
  destruct ty; cbn [samplesAvailable]; try lia;
    destruct ((Z.land fifoStatus 31 =? 0) && (Z.land fifoStatus 32 =? 0)); lia.
Qed.

(** The three ways CollectData ends once the task was woken. *)
Lemma CollectData_cases (fuel : nat) (s : Sys) (c : Collected) (s' : Sys) :
  CollectData fuel s = Ok (c, s') ->
  exists s1, awaitInterrupt fuel s = Ok (tt, s1) /\
  ((c = nothingCollected /\ sameCore s1 s') \/
   exists fifoStatus s2 s3,
     ReadRegister FifoSource s1 = Ok (Some fifoStatus, s2) /\
     samplesAvailable (accelerometerType (fst s2)) fifoStatus <> 0 /\
     ReadRegisters OutXL
       (6 * samplesAvailable (accelerometerType (fst s2)) fifoStatus) s2
     = Ok (true, s3) /\
     deliverSamples fifoStatus
       (samplesAvailable (accelerometerType (fst s2)) fifoStatus) s3
     = Ok (c, s')).
Proof.
  unfold CollectData. intros Hrun.
  apply bind_Ok in Hrun. destruct Hrun as [[] [s1 [Hwait Hrun]]].
  exists s1. split; [exact Hwait |].
  apply bind_Ok in Hrun. destruct Hrun as [st [s2 [Hstatus Hrun]]].
  pose proof (sameCore_ReadRegister _ _ _ _ Hstatus) as Hsame2.
  destruct st as [fifoStatus |].
  - apply bind_Ok in Hrun. destruct Hrun as [ty [s2' [Hty Hrun]]].
    unfold getD, gets in Hty. apply Ok_inv, pair_equal_spec in Hty.
    destruct Hty as [Hty Hs2]. subst s2' ty.
    destruct (samplesAvailable _ fifoStatus =? 0) eqn:Hzero.
    + unfold ret in Hrun. apply Ok_inv, pair_equal_spec in Hrun.
      destruct Hrun as [Hc Hs]. subst s'. left.
      apply Z.eqb_eq in Hzero. rewrite Hzero in Hc. split; [auto | exact Hsame2].
    + apply bind_Ok in Hrun. destruct Hrun as [okB [s3 [Hburst Hrun]]].
      destruct okB; cbn [negb] in Hrun.
      * right. exists fifoStatus, s2, s3. apply Z.eqb_neq in Hzero.
        repeat split; assumption.
      * unfold ret in Hrun. apply Ok_inv, pair_equal_spec in Hrun.
        destruct Hrun as [Hc Hs]. subst s'. left. split; [auto |].
        apply (sameCore_trans _ s2); [exact Hsame2 |].
        apply (sameCore_ReadRegisters _ _ _ _ _ Hburst).
  - unfold ret in Hrun. apply Ok_inv, pair_equal_spec in Hrun.
    destruct Hrun as [Hc Hs]. subst s'. left. split; [auto | exact Hsame2].
Qed.

Lemma deliverSamples_outcome (fifoStatus n : Z) (d : State) (w : World)
    (c : Collected) (s' : Sys) :
  deliverSamples fifoStatus n (d, w) = Ok (c, s') ->
  s' = (set_totalNumRead (uint32 (totalNumRead d + n)) d, w) /\
  sampleCount c = n /\
  collectedData c = Some (transferBuffer_data d) /\
  overflowed c = Some (negb (Z.land fifoStatus 64 =? 0)) /\
  exists rate, dataRate c = Some rate /\ 0 <= rate < 2 ^ 16 /\
               (totalNumRead d = 0 -> rate = 0).
Proof.
  unfold deliverSamples, computeDataRate. run_setup.
  destruct (totalNumRead d =? 0) eqn:Hzero.
  - intros Hrun. apply Ok_inv, pair_equal_spec in Hrun. destruct Hrun as [Hc Hs].
    subst c s'. cbn [sampleCount collectedData overflowed dataRate].
    repeat split. exists 0. repeat split; lia.
  - destruct (uint32 (lastInterruptTime d - firstInterruptTime d) =? 0);
      [discriminate |].
    intros Hrun. apply Ok_inv, pair_equal_spec in Hrun. destruct Hrun as [Hc Hs].
    subst c s'. cbn [sampleCount collectedData overflowed dataRate].
    repeat split. eexists. split; [reflexivity |]. split.
    + unfold uint16, wrap. apply Z.mod_pos_bound. lia.
    + intros Hz. rewrite Hz in Hzero. discriminate.
Qed.

(** X8. The outputs of CollectData go with its return value.  The count
    returned lies between 0 and 32 (63 on the LIS2DW).  When it is 0, none
    of the three outputs was assigned and the running sample count is as
    before.  When it is not 0, all three outputs were assigned: the data
    are the bytes of the driver's buffer, the data rate is a 16-bit value,
    and the running sample count has grown by the count (modulo 2^32). *)
Theorem CollectData_outputs (fuel : nat) (d : State) (w : World)
    (c : Collected) (d' : State) (w' : World) :
  CollectData fuel (d, w) = Ok (c, (d', w')) ->
  0 <= sampleCount c
    <= match accelerometerType d with AccelerometerType.LIS2DW => 63 | _ => 32 end /\
  (sampleCount c = 0 ->
   collectedData c = None /\ dataRate c = None /\ overflowed c = None /\
   totalNumRead d' = totalNumRead d) /\
  (sampleCount c <> 0 ->
   collectedData c = Some (transferBuffer_data d') /\
   (exists rate, dataRate c = Some rate /\ 0 <= rate < 2 ^ 16) /\
   (exists flag, overflowed c = Some flag) /\
   totalNumRead d' = uint32 (totalNumRead d + sampleCount c)).
Proof.
  intros Hrun. apply CollectData_cases in Hrun.
  destruct Hrun as [s1 [Hwait Hrest]].
  apply sameSetup_awaitInterrupt, sameSetup_fields in Hwait.
  cbn [fst] in Hwait. destruct Hwait as [Hty1 Htot1].
  destruct Hrest as [[Hc Hsame] | [fifoStatus [s2 [[d3 w3] [Hstatus [Hn [Hburst Hdeliver]]]]]]].
  - apply sameCore_fields in Hsame. cbn [fst] in Hsame.
    destruct Hsame as [_ [_ [Htot _]]]. subst c. cbn [nothingCollected sampleCount
      collectedData dataRate overflowed].
    split; [destruct (accelerometerType d); lia |].
    split; [intros _; repeat split; congruence | intros Hne; contradiction Hne; reflexivity].
  - apply sameCore_ReadRegister, sameCore_fields in Hstatus.
    destruct Hstatus as [Hty2 [_ [Htot2 _]]].
    apply sameCore_ReadRegisters, sameCore_fields in Hburst.
    cbn [fst] in Hburst. destruct Hburst as [_ [_ [Htot3 _]]].
    apply deliverSamples_outcome in Hdeliver.
    destruct Hdeliver as [Hs [Hcount [Hdata [Hover [rate [Hrate [Hrange _]]]]]]].
    inversion Hs; subst d' w'. clear Hs.
    rewrite Hty2, Hty1 in *.
    pose proof (samplesAvailable_range (accelerometerType d) fifoStatus) as Hr.
    rewrite Hcount. split; [exact Hr |].
    split; [intros Hz; contradiction (Hn Hz) |].
    intros _. cbn [transferBuffer_data totalNumRead set_totalNumRead].
    split; [exact Hdata |]. split; [exists rate; auto |].
    split; [eexists; exact Hover |]. congruence.
Qed.

(** X9. The data-rate computation divides by the difference of the latest
    and the first interrupt time.  When CollectData has read a batch
    successfully while samples were already counted and both times
    coincide (no interrupt came since the first one), that division is by
    zero: the call has no defined result. *)
Theorem CollectData_rate_undefined (fuel : nat) (s s1 s2 s3 : Sys) (fifoStatus : Z) :
  awaitInterrupt fuel s = Ok (tt, s1) ->
  ReadRegister FifoSource s1 = Ok (Some fifoStatus, s2) ->
  samplesAvailable (accelerometerType (fst s2)) fifoStatus <> 0 ->
  ReadRegisters OutXL
    (6 * samplesAvailable (accelerometerType (fst s2)) fifoStatus) s2
  = Ok (true, s3) ->
  totalNumRead (fst s3) <> 0 ->
  uint32 (lastInterruptTime (fst s3) - firstInterruptTime (fst s3)) = 0 ->
  CollectData fuel s = Invalid.
Proof.
  intros Hwait Hstatus Hn Hburst Htotal Htimes.
  unfold CollectData, bind. rewrite Hwait, Hstatus.
  unfold getD at 1. unfold gets at 1.
  apply Z.eqb_neq in Hn. rewrite Hn, Hburst. cbn [negb].
  destruct s3 as [d3 w3]. cbn [fst] in *.
  unfold deliverSamples, computeDataRate. run_setup.
  apply Z.eqb_neq in Htotal. rewrite Htotal, Htimes. reflexivity.
Qed.

Lemma sameCore_enableAndAttach (value pin : Z) :
  preserves sameCore (enableAndAttach value pin).
Proof.
  unfold enableAndAttach. pose proof sameCore_WriteRegister.
  pose proof (@sameCore_io bool). keep sameCore_refl sameCore_trans.
Qed.

Lemma StartCollecting_true (fuel : nat) (axes : Z) (s s' : Sys) :
  StartCollecting fuel axes s = Ok (true, s') -> totalNumRead (fst s') = 0.
Proof.
  destruct s as [d w]. intros Hrun. rewrite StartCollecting_run in Hrun.
  destruct (clearFifo _ fuel (d, w)) as [[[|] [d1 w1]] | |]; try discriminate.
  rewrite armCollection_run in Hrun.
  destruct (fst (int1Level d1 w1)); [discriminate |].
  apply sameCore_enableAndAttach, sameCore_fields in Hrun.
  destruct Hrun as [_ [_ [Htot _]]]. rewrite Htot. reflexivity.
Qed.

(** X10. StartCollecting that returns true has reset the sample count, and
    the first batch CollectData delivers from that driver state is
    reported with data rate 0 and makes the sample count the size of the
    batch. *)
Theorem first_batch_rate_zero (fuel fuel' : nat) (axes : Z) (s : Sys)
    (d1 : State) (w1 w2 : World) (c : Collected) (s' : Sys) :
  StartCollecting fuel axes s = Ok (true, (d1, w1)) ->
  CollectData fuel' (d1, w2) = Ok (c, s') ->
  sampleCount c <> 0 ->
  totalNumRead d1 = 0 /\
  dataRate c = Some 0 /\
  totalNumRead (fst s') = sampleCount c.
Proof.
  intros Hstart Hrun Hne. apply StartCollecting_true in Hstart.
  cbn [fst] in Hstart. split; [exact Hstart |].
  apply CollectData_cases in Hrun. destruct Hrun as [s1 [Hwait Hrest]].
  apply sameSetup_awaitInterrupt, sameSetup_fields in Hwait.
  cbn [fst] in Hwait. destruct Hwait as [_ Htot1].
  destruct Hrest as [[Hc _] | [fifoStatus [s2 [[d3 w3] [Hstatus [Hn [Hburst Hdeliver]]]]]]].
  - subst c. contradiction Hne. reflexivity.
  - pose proof (samplesAvailable_range (accelerometerType (fst s2)) fifoStatus) as Hr.
    apply sameCore_ReadRegister, sameCore_fields in Hstatus.
    destruct Hstatus as [_ [_ [Htot2 _]]].
    apply sameCore_ReadRegisters, sameCore_fields in Hburst.
    cbn [fst] in Hburst. destruct Hburst as [_ [_ [Htot3 _]]].
    assert (Hzero : totalNumRead d3 = 0) by congruence.
    apply deliverSamples_outcome in Hdeliver.
    destruct Hdeliver as [Hs [Hcount [_ [_ [rate [Hrate [_ Hrate0]]]]]]].
    rewrite (Hrate0 Hzero) in Hrate. split; [exact Hrate |].
    subst s'. cbn [fst totalNumRead set_totalNumRead].
    rewrite Hzero, Hcount. apply uint32_small.
    destruct (accelerometerType (fst s2)); lia.
Qed.

(** ** Register addressing *)

(** X11. A read of a single register does not depend on the chip type the
    driver has recorded: with any other type recorded it makes the same
    calls on the platform with the same arguments and gives the same
    result.  (This is what lets CheckPresent read WHO_AM_I before the type
    is known.) *)
Theorem single_read_ignores_type (reg n : Z) (ty : AccelerometerType.t) (s : Sys) :
  n < 2 ->
  ReadRegisters reg n (withType ty s) =
  match ReadRegisters reg n s with
  | Ok (ok, s') => Ok (ok, withType ty s')
  | OutOfFuel => OutOfFuel
  | Invalid => Invalid
  end.
Proof.
  intros Hn. destruct s as [d w]. unfold withType. cbn [fst snd].
  assert (Hplain : forall t, plainAddress t n = true).
  { intros t. unfold plainAddress. apply Z.ltb_lt in Hn. rewrite Hn. reflexivity. }
  destruct ACCELEROMETER_USES_SPI eqn:Hbuild.
  - rewrite !ReadRegisters_spi by exact Hbuild. cbv zeta.
    cbn [accelerometerType set_accelerometerType transferBuffer_data].
    rewrite !Hplain.
    destruct (fst (Spi_Select Lis3dSpiTimeout (hw w))); [| reflexivity].
    destruct (overwrite _ _); reflexivity.
  - rewrite !ReadRegisters_i2c by exact Hbuild. cbv zeta.
    cbn [accelerometerType set_accelerometerType transferBuffer_data client].
    rewrite !Hplain.
    destruct (Transfer _ _ _ _ _ w) as [[[ok buf] w1] | |]; try reflexivity.
    cbn [fst snd]. destruct buf; reflexivity.
Qed.

End LIS3DHSetupFacts.

(* ================================================================= *)
(** * Further properties of Thermistor *)

Section ThermistorMoreFacts.
Import Machine Float TemperatureSensor Thermistor ThermistorTerms.
Context {T : Target}.

(** ** Configure: set or query *)

Lemma thermistor_eta (th : Thermistor) :
  mkThermistor (sensor th) (port th) (adcFilterChannel th) (r25 th) (beta th)
    (shC th) (seriesR th) (isPT1000 th) (shA th) (shB th)
    (adcLowOffset th) (adcHighOffset th) = th.
Proof. destruct th; reflexivity. Qed.

Lemma getFloat_present (parser : CanMessageGenericParser) (c : ascii) (var : float) :
  fst (getFloat parser c var) = present (GetFloatParam parser c) /\
  (present (GetFloatParam parser c) = false -> snd (getFloat parser c var) = var).
Proof.
  unfold getFloat. destruct (GetFloatParam parser c); cbn; split;
    try reflexivity; discriminate.
Qed.

Lemma getInt_present (parser : CanMessageGenericParser) (c : ascii) (var : Z) :
  fst (getInt parser c var) = present (GetIntValue parser c) /\
  (present (GetIntValue parser c) = false -> snd (getInt parser c var) = var).
Proof.
  unfold getInt. destruct (GetIntValue parser c); cbn; split;
    try reflexivity; discriminate.
Qed.

Lemma configureThermistor_seen (parser : CanMessageGenericParser) (seen : bool)
    (th : Thermistor) :
  fst (configureThermistor parser seen th)
  = seen || thermistorParameters parser /\
  (fst (configureThermistor parser seen th) = false ->
   snd (configureThermistor parser seen th) = th).
Proof.
  unfold configureThermistor, thermistorParameters, getFloat.
  destruct (GetFloatParam parser "B");
    destruct (GetFloatParam parser "C");
    destruct (GetFloatParam parser "T");
    destruct seen; cbn [present orb fst snd]; split; try reflexivity;
    try discriminate.
  intros _. apply thermistor_eta.
Qed.

Lemma configureOffsets_seen (parser : CanMessageGenericParser) (seen : bool)
    (th : Thermistor) :
  fst (configureOffsets parser seen th) = seen || offsetParameters parser /\
  (fst (configureOffsets parser seen th) = false ->
   snd (configureOffsets parser seen th) = th).
Proof.
  unfold configureOffsets, offsetParameters, getInt.
  destruct (GetIntValue parser "L");
    destruct (GetIntValue parser "H");
    destruct seen; cbn [present orb fst snd]; split; try reflexivity;
    try discriminate.
  intros _. apply thermistor_eta.
Qed.

Lemma configureThermistor_frame (parser : CanMessageGenericParser) (seen : bool)
    (th : Thermistor) :
  port (snd (configureThermistor parser seen th)) = port th /\
  isPT1000 (snd (configureThermistor parser seen th)) = isPT1000 th.
Proof.
  unfold configureThermistor.
  destruct (getFloat parser "B" (beta th)) as [sB b1].
  destruct (getFloat parser "C" _) as [sC c1].
  destruct (getFloat parser "T" (r25 th)) as [sT t1].
  destruct (sT || (sC || (sB || seen))); split; reflexivity.
Qed.

Lemma configureOffsets_frame (parser : CanMessageGenericParser) (seen : bool)
    (th : Thermistor) :
  port (snd (configureOffsets parser seen th)) = port th /\
  isPT1000 (snd (configureOffsets parser seen th)) = isPT1000 th.
Proof.
  unfold configureOffsets.
  destruct (getInt parser "L" _) as [sL l1].
  destruct (getInt parser "H" _) as [sH h1].
  split; reflexivity.
Qed.

(** Lines 42-55 as Configure runs them. *)
Lemma thermistor_stage (parser : CanMessageGenericParser) (seen : bool)
    (th : Thermistor) :
  let r := if negb (isPT1000 th) then configureThermistor parser seen th
           else (seen, th) in
  fst r = seen || (negb (isPT1000 th) && thermistorParameters parser) /\
  port (snd r) = port th /\ isPT1000 (snd r) = isPT1000 th /\
  (fst r = false -> snd r = th).
Proof.
  cbv zeta. destruct (isPT1000 th) eqn:Hkind; cbn [negb andb fst snd].
  - rewrite orb_false_r. repeat split; [exact Hkind].
  - destruct (configureThermistor_seen parser seen th) as [Hs Hk].
    destruct (configureThermistor_frame parser seen th) as [Hp Hi].
    rewrite Hkind in Hi. repeat split; assumption.
Qed.

(** Lines 57-60 as Configure runs them. *)
Lemma offsets_stage (parser : CanMessageGenericParser) (seen : bool)
    (th : Thermistor) :
  let r := if HAS_VREF_MONITOR then (seen, th)
           else configureOffsets parser seen th in
  fst r = seen || (negb HAS_VREF_MONITOR && offsetParameters parser) /\
  port (snd r) = port th /\ isPT1000 (snd r) = isPT1000 th /\
  (fst r = false -> snd r = th).
Proof.
  cbv zeta. destruct HAS_VREF_MONITOR; cbn [negb andb fst snd].
  - rewrite orb_false_r. repeat split.
  - destruct (configureOffsets_seen parser seen th) as [Hs Hk].
    destruct (configureOffsets_frame parser seen th) as [Hp Hi].
    repeat split; assumption.
Qed.

(** X12. Configure either sets or reports.  When ConfigurePort fails the
    result is [error] and the sensor is untouched.  Otherwise the result is
    [ok]; if the port or any parameter that applies to the sensor was
    seen, nothing is reported, and the filter channel is looked up again and
    initialised when it exists; if nothing was seen, the sensor keeps all
    its parameters (only the port is the one ConfigurePort gave), no filter
    is initialised, and the reply is the summary of those parameters. *)
Theorem Configure_set_or_query (parser : CanMessageGenericParser) (th : Thermistor) :
  (ConfigurePort parser (port th) = None ->
   Configure parser th = mkConfigured error th ErrorMessage None) /\
  (forall port1 seen0,
     ConfigurePort parser (port th) = Some (port1, seen0) ->
     let c := Configure parser th in
     result c = ok /\
     (seen0 || anyParameter parser th = true ->
      reply c = NothingWritten /\
      adcFilterChannel (configured c) = GetAveragingFilterIndex (port (configured c)) /\
      port (configured c) = port1 /\
      filterInit c =
        (if 0 <=? adcFilterChannel (configured c)
         then Some (adcFilterChannel (configured c), Z.shiftl 1 AdcBits - 1)
         else None)) /\
     (seen0 || anyParameter parser th = false ->
      configured c =
        mkThermistor (sensor th) port1 (adcFilterChannel th) (r25 th) (beta th)
          (shC th) (seriesR th) (isPT1000 th) (shA th) (shB th)
          (adcLowOffset th) (adcHighOffset th) /\
      filterInit c = None /\
      reply c =
        (if isPT1000 th then Pt1000Summary (seriesR th) (offsetsOf th)
         else ThermistorSummary (r25 th) (beta th) (shC th) (seriesR th)
                (offsetsOf th)))).
Proof.
  split.
  - intros Hport. unfold Configure. rewrite Hport. reflexivity.
  - intros port1 seen0 Hport. cbv zeta. unfold Configure. rewrite Hport.
    destruct (getFloat_present parser "R" (seriesR th)) as [HseenR HkeepR].
    destruct (getFloat parser "R" (seriesR th)) as [sR seriesR1].
    cbn [fst snd] in HseenR, HkeepR. subst sR.
    match goal with
    | |- context [configureThermistor parser ?seen1 ?th1] =>
        pose proof (thermistor_stage parser seen1 th1) as Hstage2;
        cbv zeta in Hstage2;
        destruct (if negb (isPT1000 th1) then configureThermistor parser seen1 th1
                  else (seen1, th1)) as [seen2 th2]
    end.
    cbn [fst snd isPT1000 port] in Hstage2.
    destruct Hstage2 as [Hseen2 [Hport2 [Hkind2 Hkeep2]]].
    pose proof (offsets_stage parser seen2 th2) as Hstage3. cbv zeta in Hstage3.
    destruct (if HAS_VREF_MONITOR then (seen2, th2)
              else configureOffsets parser seen2 th2) as [seen3 th3].
    cbn [fst snd] in Hstage3.
    destruct Hstage3 as [Hseen3 [Hport3 [Hkind3 Hkeep3]]].
    assert (Hall : seen3 = seen0 || anyParameter parser th).
    { rewrite Hseen3, Hseen2. unfold anyParameter.
      destruct seen0, (present (GetFloatParam parser "R")),
        (negb (isPT1000 th) && thermistorParameters parser),
        (negb HAS_VREF_MONITOR && offsetParameters parser); reflexivity. }
    rewrite <- Hall. destruct seen3.
    + split; [reflexivity |]. split; [| discriminate].
      intros _. cbn [reply configured adcFilterChannel port filterInit].
      repeat split. congruence.
    + split; [reflexivity |]. split; [discriminate |].
      intros _. cbn [reply configured filterInit].
      specialize (Hkeep3 eq_refl). subst th3.
      assert (Hseen2f : seen2 = false)
        by (destruct seen2; [discriminate Hseen3 | reflexivity]).
      specialize (Hkeep2 Hseen2f). subst th2.
      assert (HnoR : present (GetFloatParam parser "R") = false).
      { rewrite Hseen2f in Hseen2.
        destruct (present (GetFloatParam parser "R")); [discriminate | reflexivity]. }
      rewrite (HkeepR HnoR) in *.
      split; [reflexivity |]. split; [reflexivity |].
      cbn [isPT1000 seriesR r25 beta shC]. unfold offsetsOf.
      cbn [adcLowOffset adcHighOffset]. reflexivity.
Qed.

(** ** Configure and the derived coefficients *)

Lemma derivedConsistent_CalcDerivedParameters (th : Thermistor) :
  derivedConsistent (CalcDerivedParameters th).
Proof. split; reflexivity. Qed.

Lemma derivedConsistent_raw (th th' : Thermistor) :
  r25 th' = r25 th -> beta th' = beta th -> shC th' = shC th ->
  shA th' = shA th -> shB th' = shB th ->
  derivedConsistent th -> derivedConsistent th'.
Proof.
  unfold derivedConsistent, CalcDerivedParameters. cbn [shA shB].
  intros -> -> -> -> -> H. exact H.
Qed.

Lemma derived_configureThermistor (parser : CanMessageGenericParser)
    (seen : bool) (th : Thermistor) :
  derivedConsistent th -> derivedConsistent (snd (configureThermistor parser seen th)).
Proof.
  intros Hcons.
  destruct (configureThermistor_seen parser seen th) as [_ Hkeep].
  unfold configureThermistor in *.
  destruct (getFloat parser "B" (beta th)) as [sB b1].
  destruct (getFloat parser "C" _) as [sC c1].
  destruct (getFloat parser "T" (r25 th)) as [sT t1].
  cbn [fst snd] in *.
  destruct (sT || (sC || (sB || seen))).
  - apply derivedConsistent_CalcDerivedParameters.
  - rewrite (Hkeep eq_refl). exact Hcons.
Qed.

Lemma derived_Configure (parser : CanMessageGenericParser) (th : Thermistor) :
  derivedConsistent th ->
  derivedConsistent (configured (Configure parser th)).
Proof.
  intros Hcons. unfold Configure.
  destruct (ConfigurePort parser (port th)) as [[port1 seen0] |]; [| exact Hcons].
  destruct (getFloat parser "R" (seriesR th)) as [sR seriesR1].
  set (th1 := mkThermistor (sensor th) port1 (adcFilterChannel th) (r25 th)
                (beta th) (shC th) seriesR1 (isPT1000 th) (shA th) (shB th)
                (adcLowOffset th) (adcHighOffset th)).
  assert (Hcons1 : derivedConsistent th1)
    by (apply (derivedConsistent_raw th); auto).
  assert (Hcons2 : derivedConsistent
            (snd (if negb (isPT1000 th1) then configureThermistor parser (sR || seen0) th1
                  else (sR || seen0, th1)))).
  { destruct (negb (isPT1000 th1)); [apply derived_configureThermistor |]; exact Hcons1. }
  destruct (if negb (isPT1000 th1) then _ else _) as [seen2 th2].
  cbn [snd] in Hcons2.
  assert (Hcons3 : derivedConsistent
            (snd (if HAS_VREF_MONITOR then (seen2, th2)
                  else configureOffsets parser seen2 th2))).
  { destruct HAS_VREF_MONITOR; [exact Hcons2 |].
    unfold configureOffsets.
    destruct (getInt parser "L" _) as [sL l1].
    destruct (getInt parser "H" _) as [sH h1]. cbn [snd].
    apply (derivedConsistent_raw th2); auto. }
  destruct (if HAS_VREF_MONITOR then _ else _) as [seen3 th3].
  cbn [snd] in Hcons3.
  destruct seen3; cbn [configured]; [| exact Hcons3].
  apply (derivedConsistent_raw th3); auto.
Qed.

(** X13. The derived Steinhart-Hart coefficients stay in step with the raw
    parameters.  CalcDerivedParameters, with which the constructor ends
    (line 29), makes [shA] and [shB] the values computed from R25, beta and
    C; and when they are so, they are so again after any sequence of
    Configure calls, whatever the parsers carry and whether the calls set,
    report or fail. *)
Theorem Configure_keeps_derived :
  (forall th, derivedConsistent (CalcDerivedParameters th)) /\
  (forall (parsers : list CanMessageGenericParser) (th : Thermistor),
     derivedConsistent th ->
     derivedConsistent
       (fold_left (fun acc parser => configured (Configure parser acc))
          parsers th)).
Proof.
  split; [exact derivedConsistent_CalcDerivedParameters |].
  induction parsers as [| parser rest IH]; intros th Hcons; [exact Hcons |].
  cbn [fold_left]. apply IH. apply derived_Configure. exact Hcons.
Qed.

(** X14. On a PT1000 sensor Configure takes the series resistor (and the
    port and offsets) only: whatever 'B', 'C' or 'T' the parser carries,
    R25, beta, the cubic coefficient and the derived coefficients stay as
    they were, and the sensor stays a PT1000. *)
Theorem Configure_PT1000 (parser : CanMessageGenericParser) (th : Thermistor) :
  isPT1000 th = true ->
  let th' := configured (Configure parser th) in
  isPT1000 th' = true /\
  r25 th' = r25 th /\ beta th' = beta th /\ shC th' = shC th /\
  shA th' = shA th /\ shB th' = shB th /\
  sensor th' = sensor th.
Proof.
  intros Hkind. cbv zeta. unfold Configure.
  destruct (ConfigurePort parser (port th)) as [[port1 seen0] |];
    [| cbn [configured]; repeat split; exact Hkind].
  destruct (getFloat parser "R" (seriesR th)) as [sR seriesR1].
  cbn [isPT1000]. rewrite Hkind. cbn [negb].
  destruct HAS_VREF_MONITOR.
  - destruct (sR || seen0); cbn; repeat split; exact Hkind.
  - unfold configureOffsets.
    destruct (getInt parser "L" _) as [sL l1].
    destruct (getInt parser "H" _) as [sH h1].
    destruct (sH || (sL || (sR || seen0))); cbn; repeat split; exact Hkind.
Qed.

(** ** Poll *)

(** X15. Poll classifies the faults of the inputs before it converts, in
    this order: a filter that is not valid gives [notReady]; with a VREF
    monitor, a reference reading below the limit gives [badVref], also
    when the ground reading is too high as well, and only then a ground
    reading above [maxDrop] gives [badVssa].  None of these calls carries a
    value. *)
Theorem Poll_input_faults (filters : Z -> ThermistorAveragingFilter)
    (th : Thermistor) :
  (IsValid (filters (adcFilterChannel th)) = false ->
   pollCall filters th = Some (CodeOnly notReady)) /\
  (HAS_VREF_MONITOR = true ->
   (IsValid (filters VrefFilterIndex) = false \/
    IsValid (filters VssaFilterIndex) = false ->
    pollCall filters th = Some (CodeOnly notReady)) /\
   forall vssa vref,
     IsValid (filters (adcFilterChannel th)) = true ->
     IsValid (filters VrefFilterIndex) = true ->
     IsValid (filters VssaFilterIndex) = true ->
     averaged (GetSum (filters VssaFilterIndex))
              (NumAveraged (filters VssaFilterIndex)) = Some vssa ->
     averaged (GetSum (filters VrefFilterIndex))
              (NumAveraged (filters VssaFilterIndex)) = Some vref ->
     (vref < Z.shiftl 4096 AdcOversampleBits - maxDrop ->
      pollCall filters th = Some (CodeOnly badVref)) /\
     (Z.shiftl 4096 AdcOversampleBits - maxDrop <= vref -> maxDrop < vssa ->
      pollCall filters th = Some (CodeOnly badVssa))).
Proof.
  split; [| intros Hbuild; split].
  - intros Hinvalid. unfold pollCall. rewrite Hinvalid.
    destruct HAS_VREF_MONITOR; reflexivity.
  - intros Hinvalid. unfold pollCall. rewrite Hbuild.
    destruct (IsValid (filters (adcFilterChannel th))); [| reflexivity].
    destruct Hinvalid as [Hv | Hv]; rewrite Hv;
      [| destruct (IsValid (filters VrefFilterIndex))]; reflexivity.
  - intros vssa vref Ht Hr Hs Hvssa Hvref. unfold pollCall.
    rewrite Hbuild, Ht, Hr, Hs, Hvssa, Hvref. cbn [andb]. split.
    + intros Hlow. apply Z.ltb_lt in Hlow. rewrite Hlow. reflexivity.
    + intros Hok Hhigh. apply Z.ltb_ge in Hok. apply Z.ltb_lt in Hhigh.
      rewrite Hok, Hhigh. reflexivity.
Qed.




(** X18. With a VREF monitor the open circuit can be read off the integer
    readings: whenever the averaged sensor reading reaches the averaged
    reference reading, the denominator is [<= 0.0] after the conversion to
    float, and Poll calls SetResult(ABS_ZERO, openCircuit), for a thermistor
    and for a PT1000 alike. *)
Theorem Poll_reference_reached (filters : Z -> ThermistorAveragingFilter)
    (th : Thermistor) (vssa vref temp : Z) :
  HAS_VREF_MONITOR = true ->
  averagedReadings filters th = Some (vssa, vref, temp) ->
  readingsUsable filters th vssa vref = true ->
  - 2 ^ 24 < vref - temp <= 0 ->
  le (denominator vref temp) zero = true /\
  pollCall filters th = Some (WithValue ABS_ZERO openCircuit).
Proof.
  intros Hbuild Hread Huse Hdiff.
  assert (Hdenom : le (denominator vref temp) zero = true).
  { unfold denominator. rewrite Hbuild. apply of_Z_nonpositive; lia. }
  split; [exact Hdenom |].
  apply (pollCall_open_circuit _ _ _ _ _ Hread Huse). left. exact Hdenom.
Qed.

End ThermistorMoreFacts.

(* ================================================================= *)
(** * Further properties of ScanningSensorHandler *)

Section ScanningSensorMoreFacts.
Import Machine Exec Platform ScanningSensorHandler.
Context {B : Board}.

(** X19. GetReading touches the platform at most once.  Without a sensor
    it leaves the platform as it is and makes no call; with a sensor it
    makes exactly one call, the read of channel 0, and what it returns is
    either 0 or the value that read delivered. *)
Theorem GetReading_one_read (sensor : option LDC1612) (w : World) :
  exists (r : Z) (w' : World),
    GetReading sensor w = Ok (r, w') /\
    match sensor with
    | None => w' = w
    | Some _ =>
        exists res, trace w' = (trace w ++ [ChannelResult 0 res])%list /\
                    (r = 0 \/ res = Some r)
    end.
Proof.
  destruct sensor as [s |]; [| exists 0, w; split; reflexivity].
  unfold GetReading, GetChannelResult, bind, ret.
  destruct (LDC1612_GetChannelResult 0 (hw w)) as [[val |] h];
    cbn [option_map].
  - destruct (Z.shiftr (uint32 val) 28 =? 0);
      eexists; eexists; (split; [reflexivity |]);
      eexists; (split; [reflexivity |]); [right | left]; reflexivity.
  - eexists; eexists; split; [reflexivity |].
    eexists; split; [reflexivity | left; reflexivity].
Qed.

End ScanningSensorMoreFacts.

Section LIS3DHSetupWitnesses.
Import Machine Exec Platform SharedI2C LIS3DH LIS3DHSetup Mock MockSetup.

Lemma driver_releases_bus_witness :
  exists b s',
    CheckPresent (scripted AccelerometerType.LIS3DH [(false, []); (true, [68])])
    = Ok (b, s') /\
    releasesBus (scripted AccelerometerType.LIS3DH [(false, []); (true, [68])]) s'.
Proof.
  let r := eval vm_compute in
             (CheckPresent
                (scripted AccelerometerType.LIS3DH [(false, []); (true, [68])])) in
  match r with
  | Ok (?b, ?s') =>
      exists b, s';
      assert (Hrun : CheckPresent
                       (scripted AccelerometerType.LIS3DH
                          [(false, []); (true, [68])]) = Ok (b, s'))
        by (vm_compute; reflexivity);
      split; [exact Hrun | exact (proj1 driver_releases_bus _ _ _ Hrun)]
  end.
Defined.

Lemma Configure_supported_witness :
  exists d' w',
    Configure 2000 12 (scripted AccelerometerType.LIS3DH [(true, []); (true, [])])
    = Ok ((true, 1344, 12), (d', w')) /\
    supported AccelerometerType.LIS3DH 1344 12 /\
    accelerometerType d' = AccelerometerType.LIS3DH.
Proof.
  let r := eval vm_compute in
             (Configure 2000 12
                (scripted AccelerometerType.LIS3DH [(true, []); (true, [])])) in
  match r with
  | Ok (_, (?d', ?w')) =>
      exists d', w';
      assert (Hrun : Configure 2000 12
                       (lis3dh AccelerometerType.LIS3DH,
                        world (mkMock true [(true, []); (true, [])] false None))
                     = Ok ((true, 1344, 12), (d', w')))
        by (vm_compute; reflexivity);
      split; [exact Hrun | exact (Configure_supported _ _ _ _ _ _ _ _ Hrun)]
  end.
Defined.

Lemma Configure_again_witness :
  exists d1 w1 d2 w3,
    Configure 0 0 (scripted AccelerometerType.LIS2DW
                     [(true, []); (true, []); (true, [])])
    = Ok ((true, 1600, 14), (d1, w1)) /\
    Configure 1600 14
      (d1, world (mkMock true [(true, []); (true, []); (true, [])] false None))
    = Ok ((true, 1600, 14), (d2, w3)) /\
    ctrlReg_0x20 d2 = ctrlReg_0x20 d1.
Proof.
  pose (w := world (mkMock true [(true, []); (true, []); (true, [])] false None)).
  let r := eval vm_compute in (Configure 0 0 (lis3dh AccelerometerType.LIS2DW, w)) in
  match r with
  | Ok (_, (?d1, ?w1)) =>
      let r2 := eval vm_compute in (Configure 1600 14 (d1, w)) in
      match r2 with
      | Ok (_, (?d2, ?w3)) =>
          exists d1, w1, d2, w3;
          assert (Hrun : Configure 0 0 (lis3dh AccelerometerType.LIS2DW, w)
                         = Ok ((true, 1600, 14), (d1, w1)))
            by (vm_compute; reflexivity);
          assert (Hrun2 : Configure 1600 14 (d1, w)
                          = Ok ((true, 1600, 14), (d2, w3)))
            by (vm_compute; reflexivity);
          split; [exact Hrun | split; [exact Hrun2 |]];
          exact (proj2 (proj2 (Configure_again _ _ _ _ _ _ _ _ _ _ _ _ _
                                 Hrun Hrun2)))
      end
  end.
Defined.



Lemma CheckPresent_identifies_witness :
  exists d' w',
    CheckPresent (scripted AccelerometerType.LIS3DH [(false, []); (true, [68])])
    = Ok (true, (d', w')) /\
    interruptError d' = false /\
    identified d' /\
    accelerometerType d' = AccelerometerType.LIS2DW /\
    address (client d') = 25.
Proof.
  pose (s := scripted AccelerometerType.LIS3DH [(false, []); (true, [68])]).
  let r := eval vm_compute in (CheckPresent s) in
  match r with
  | Ok (_, (?d', ?w')) =>
      exists d', w';
      assert (Hrun : CheckPresent (fst s, snd s) = Ok (true, (d', w')))
        by (vm_compute; reflexivity);
      destruct (CheckPresent_identifies _ _ _ _ _ Hrun) as [Hflag [Hfound _]];
      destruct (Hfound eq_refl) as [Hchip _];
      split; [exact Hrun | split; [exact Hflag | split; [exact Hchip |]]]
  end.
  split; vm_compute; reflexivity.
Defined.

Lemma CollectData_outputs_witness :
  exists c d' w',
    CollectData 1 (watermark (true, repeat 5 144) AccelerometerType.LIS2DW)
    = Ok (c, (d', w')) /\
    sampleCount c = 24 /\
    collectedData c = Some (transferBuffer_data d') /\
    totalNumRead d' = 24.
Proof.
  pose (s := watermark (true, repeat 5 144) AccelerometerType.LIS2DW).
  let r := eval vm_compute in (CollectData 1 s) in
  match r with
  | Ok (?c, (?d', ?w')) =>
      exists c, d', w';
      assert (Hrun : CollectData 1 (fst s, snd s) = Ok (c, (d', w')))
        by (vm_compute; reflexivity);
      destruct (CollectData_outputs _ _ _ _ _ _ Hrun) as [_ [_ Hsome]];
      assert (Hcount : sampleCount c <> 0) by (vm_compute; discriminate);
      destruct (Hsome Hcount) as [Hdata [_ [_ Htotal]]];
      split; [exact Hrun | split; [reflexivity | split; [exact Hdata |]]];
      rewrite Htotal
  end.
  vm_compute. reflexivity.
Defined.

Lemma CollectData_rate_undefined_witness :
  CollectData 1
    (set_totalNumRead 24 (lis3dh AccelerometerType.LIS3DH),
     world (mkMock true [(true, [24]); (true, repeat 5 144)] true None))
  = Invalid.
Proof.
  pose (s := (set_totalNumRead 24 (lis3dh AccelerometerType.LIS3DH),
              world (mkMock true [(true, [24]); (true, repeat 5 144)] true None))).
  let r1 := eval vm_compute in (awaitInterrupt 1 s) in
  match r1 with
  | Ok (tt, ?s1) =>
      let r2 := eval vm_compute in (ReadRegister FifoSource s1) in
      match r2 with
      | Ok (Some ?st, ?s2) =>
          let r3 := eval vm_compute in (ReadRegisters OutXL 144 s2) in
          match r3 with
          | Ok (true, ?s3) =>
              apply (CollectData_rate_undefined 1 s s1 s2 s3 st)
          end
      end
  end.
  - vm_compute. reflexivity.
  - vm_compute. reflexivity.
  - vm_compute. discriminate.
  - vm_compute. reflexivity.
  - vm_compute. discriminate.
  - vm_compute. reflexivity.
Defined.

Lemma first_batch_rate_zero_witness :
  exists d1 w1 c s',
    StartCollecting 1 7 quiescent = Ok (true, (d1, w1)) /\
    CollectData 1
      (d1, world (mkMock true [(true, [24]); (true, repeat 5 144)] true None))
    = Ok (c, s') /\
    sampleCount c = 24 /\
    dataRate c = Some 0 /\
    totalNumRead (fst s') = 24.
Proof.
  pose (w2 := world (mkMock true [(true, [24]); (true, repeat 5 144)] true None)).
  let r := eval vm_compute in (StartCollecting 1 7 quiescent) in
  match r with
  | Ok (_, (?d1, ?w1)) =>
      let r2 := eval vm_compute in (CollectData 1 (d1, w2)) in
      match r2 with
      | Ok (?c, ?s') =>
          exists d1, w1, c, s';
          assert (Hrun : StartCollecting 1 7 quiescent = Ok (true, (d1, w1)))
            by (vm_compute; reflexivity);
          assert (Hrun2 : CollectData 1 (d1, w2) = Ok (c, s'))
            by (vm_compute; reflexivity);
          assert (Hcount : sampleCount c <> 0) by (vm_compute; discriminate);
          destruct (first_batch_rate_zero _ _ _ _ _ _ _ _ _ Hrun Hrun2 Hcount)
            as [_ [Hrate Htotal]];
          split; [exact Hrun | split; [exact Hrun2 | split; [reflexivity |]]];
          split; [exact Hrate | exact Htotal]
      end
  end.
Defined.

Lemma single_read_ignores_type_witness :
  ReadRegisters 15 1 (withType AccelerometerType.LIS2DW stuckHigh) =
  match ReadRegisters 15 1 stuckHigh with
  | Ok (ok, s') => Ok (ok, withType AccelerometerType.LIS2DW s')
  | OutOfFuel => OutOfFuel
  | Invalid => Invalid
  end.
Proof. apply single_read_ignores_type. lia. Defined.

End LIS3DHSetupWitnesses.

Section ThermistorMoreWitnesses.
Import Machine Float TemperatureSensor Thermistor ThermistorTerms Mock.

Lemma Configure_set_or_query_witness :
  (reply (Configure (parserOf []) thermistor0)
   = ThermistorSummary (r25 thermistor0) (beta thermistor0) (shC thermistor0)
       (seriesR thermistor0) (offsetsOf thermistor0)) /\
  (reply (Configure (parserOf [("T"%char, of_Z 10000)]) thermistor0)
   = NothingWritten /\
   filterInit (Configure (parserOf [("T"%char, of_Z 10000)]) thermistor0)
   = Some (0, 4095)).
Proof.
  split.
  - assert (Hport : ConfigurePort (parserOf []) (port thermistor0)
                    = Some (0, false)) by (vm_compute; reflexivity).
    destruct (proj2 (Configure_set_or_query (parserOf []) thermistor0) 0 false
                Hport) as [_ [_ Hquery]].
    assert (Hnone : false || anyParameter (parserOf []) thermistor0 = false)
      by (vm_compute; reflexivity).
    destruct (Hquery Hnone) as [_ [_ Hreply]]. exact Hreply.
  - assert (Hport : ConfigurePort (parserOf [("T"%char, of_Z 10000)])
                      (port thermistor0)
                    = Some (0, false)) by (vm_compute; reflexivity).
    destruct (proj2 (Configure_set_or_query (parserOf [("T"%char, of_Z 10000)])
                       thermistor0) 0 false Hport) as [_ [Hset _]].
    assert (Hsome : false || anyParameter (parserOf [("T"%char, of_Z 10000)])
                               thermistor0 = true)
      by (vm_compute; reflexivity).
    destruct (Hset Hsome) as [Hreply [_ [_ Hinit]]].
    split; [exact Hreply |]. rewrite Hinit. vm_compute. reflexivity.
Defined.

Lemma Configure_keeps_derived_witness :
  derivedConsistent thermistor0 /\
  derivedConsistent
    (fold_left (fun acc parser => configured (Configure parser acc))
       [parserOf [("B"%char, of_Z 4000)]; parserOf [("R"%char, of_Z 4700)]]
       thermistor0).
Proof.
  assert (Hcons : derivedConsistent thermistor0)
    by (split; vm_compute; reflexivity).
  split; [exact Hcons |].
  exact (proj2 Configure_keeps_derived
           [parserOf [("B"%char, of_Z 4000)]; parserOf [("R"%char, of_Z 4700)]]
           thermistor0 Hcons).
Defined.

Lemma Configure_PT1000_witness :
  let pt1000 :=
    mkThermistor sensor0 0 0 (of_Z 100000) (of_Z 4388) zero (of_Z 2200) true
      zero zero 0 0 in
  let parser := parserOf [("B"%char, of_Z 4000); ("R"%char, of_Z 4400)] in
  beta (configured (Configure parser pt1000)) = of_Z 4388 /\
  seriesR (configured (Configure parser pt1000)) = of_Z 4400.
Proof.
  cbv zeta. split.
  - assert (Hkind : isPT1000
                      (mkThermistor sensor0 0 0 (of_Z 100000) (of_Z 4388) zero
                         (of_Z 2200) true zero zero 0 0) = true)
      by reflexivity.
    exact (proj1 (proj2 (proj2
             (Configure_PT1000
                (parserOf [("B"%char, of_Z 4000); ("R"%char, of_Z 4400)])
                _ Hkind)))).
  - vm_compute. reflexivity.
Defined.

Lemma Poll_input_faults_witness :
  pollCall (filtersOf 8000 15000 2000) thermistor0 = Some (CodeOnly badVref) /\
  pollCall (filtersOf 8000 16380 2000) thermistor0 = Some (CodeOnly badVssa).
Proof.
  assert (Hbuild : HAS_VREF_MONITOR = true) by reflexivity.
  split.
  - apply (proj1 (proj2 (proj2 (Poll_input_faults (filtersOf 8000 15000 2000)
                                  thermistor0) Hbuild)
                    2000 15000 eq_refl eq_refl eq_refl
                    ltac:(vm_compute; reflexivity)
                    ltac:(vm_compute; reflexivity))).
    vm_compute. reflexivity.
  - apply (proj2 (proj2 (proj2 (Poll_input_faults (filtersOf 8000 16380 2000)
                                  thermistor0) Hbuild)
                    2000 16380 eq_refl eq_refl eq_refl
                    ltac:(vm_compute; reflexivity)
                    ltac:(vm_compute; reflexivity))).
    + vm_compute. discriminate.
    + vm_compute. reflexivity.
Defined.



Lemma Poll_reference_reached_witness :
  le (denominator 16380 16383) zero = true /\
  pollCall (filtersOf 16383 16380 0) thermistor0
  = Some (WithValue ABS_ZERO openCircuit).
Proof.
  apply (Poll_reference_reached (filtersOf 16383 16380 0) thermistor0 0 16380 16383).
  - reflexivity.
  - vm_compute. reflexivity.
  - vm_compute. reflexivity.
  - lia.
Defined.

End ThermistorMoreWitnesses.
